(** * Admission Announcements API: a shallow embedding of [app.py]

    The module scrapes three university web pages and serves the
    extracted announcements through paginated HTTP handlers.  The
    development below follows the file top to bottom: Python values
    (strings, slices, dictionaries), the parsed document tree the
    scrapers walk, the effects (remote fetches, logging, exceptions),
    the three scrapers and the two announcement handlers. *)

From Stdlib Require Import List ZArith NArith Lia Bool String Ascii.
Import ListNotations.

Set Implicit Arguments.
Set Warnings "-register-all".

Local Open Scope Z_scope.

(** ** Python strings *)

(** A Python [str] is a sequence of Unicode code points. *)
Definition str := list N.

(** A source-code literal. *)
Definition lit (s : string) : str :=
  List.map N_of_ascii (list_ascii_of_string s).

Definition str_eqb (a b : str) : bool :=
  if list_eq_dec N.eq_dec a b then true else false.

(** [str.isspace] on one code point: the characters [str.strip()]
    removes when called without argument. *)
Definition isspace (c : N) : bool :=
  ((9 <=? c) && (c <=? 13) || (28 <=? c) && (c <=? 32)
   || (c =? 133) || (c =? 160) || (c =? 5760)
   || (8192 <=? c) && (c <=? 8202)
   || (c =? 8232) || (c =? 8233) || (c =? 8239) || (c =? 8287)
   || (c =? 12288))%N.

Fixpoint lstrip (s : str) : str :=
  match s with
  | c :: s' => if isspace c then lstrip s' else s
  | [] => []
  end.

Definition rstrip (s : str) : str := rev (lstrip (rev s)).

(** [s.strip()] *)
Definition strip (s : str) : str := rstrip (lstrip s).

(** Truth value of a string: the empty string is false. *)
Definition truthy (s : str) : bool :=
  match s with [] => false | _ :: _ => true end.

(** [a or b] on strings. *)
Definition or_else (a b : str) : str := if truthy a then a else b.

(** ** Python list slicing *)

(** Index adjustment of [s[start:stop]] for a sequence of length [len]:
    a negative index counts from the end, and both ends are clamped
    to the sequence. *)
Definition slice_index (len i : Z) : Z :=
  if i <? 0 then Z.max 0 (i + len) else Z.min i len.

(** [s[start:stop]] *)
Definition py_slice (A : Type) (s : list A) (start stop : Z) : list A :=
  let len := Z.of_nat (List.length s) in
  let lo := slice_index len start in
  let hi := slice_index len stop in
  firstn (Z.to_nat (hi - lo)) (skipn (Z.to_nat lo) s).

(** [all_announcements[offset:offset + limit]], the expression both
    handlers use. *)
Definition page (A : Type) (s : list A) (limit offset : Z) : list A :=
  py_slice s offset (offset + limit).

(** The pages at offsets [0], [limit], ..., [(n-1) * limit]. *)
Definition pages (A : Type) (s : list A) (limit : Z) (n : nat) : list (list A) :=
  List.map (fun k => page s limit (Z.of_nat k * limit)) (seq 0 n).

(** ** Announcement records *)

(** The values stored in an announcement dictionary. *)
Inductive value : Type :=
| PyNone
| PyStr (s : str)
| PyList (l : list str).

(** An announcement is a dictionary built from a literal: its keys in
    insertion order, each with its value. *)
Definition announcement := list (string * value).

Definition keys (d : announcement) : list string := List.map fst d.

(** [d[k]] as an option. *)
Fixpoint dict_get (k : string) (d : announcement) : option value :=
  match d with
  | [] => None
  | (k', v) :: d' => if String.eqb k k' then Some v else dict_get k d'
  end.

(** ** The parsed document *)

(** A BeautifulSoup tree, the value the scrapers get from the parser
    and query with [find], [find_all], [select], [get] and [.text].
    A [Tag] has a name, the value of its multi-valued [class]
    attribute, its other attributes, and its contents.  [Comment]
    stands for the string nodes that [.text] leaves out. *)
Inductive node : Type :=
| NavigableString (s : str)
| Comment (s : str)
| Tag (name : str) (class_ : list str) (attrs : list (str * str))
      (contents : list node).

(** A page element as the scrapers hold it: the node, and the nodes
    that follow it under the same parent. *)
Record element : Type := Element {
  el_node : node;
  next_siblings : list node
}.

Fixpoint with_siblings (l : list node) : list element :=
  match l with
  | [] => []
  | c :: rest => Element c rest :: with_siblings rest
  end.

(** [.children] *)
Definition children (n : node) : list element :=
  match n with
  | Tag _ _ _ cs => with_siblings cs
  | _ => []
  end.

(** [.descendants]: every node below [n], in document order. *)
Fixpoint descendants (n : node) : list element :=
  match n with
  | Tag _ _ _ cs =>
      (fix walk (l : list node) : list element :=
         match l with
         | [] => []
         | c :: rest => Element c rest :: descendants c ++ walk rest
         end) cs
  | _ => []
  end.

Definition is_tag (n : node) : bool :=
  match n with Tag _ _ _ _ => true | _ => false end.

(** [.name] of a tag ([None] on a string node). *)
Definition name (n : node) : option str :=
  match n with Tag nm _ _ _ => Some nm | _ => None end.

Definition named (nm : str) (n : node) : bool :=
  match n with Tag nm' _ _ _ => str_eqb nm' nm | _ => false end.

Definition has_class (c : str) (n : node) : bool :=
  match n with Tag _ cl _ _ => existsb (str_eqb c) cl | _ => false end.

(** [tag.get(key)] *)
Definition get (key : str) (n : node) : option str :=
  match n with
  | Tag _ _ attrs _ =>
      option_map snd (List.find (fun kv => str_eqb (fst kv) key) attrs)
  | _ => None
  end.

(** [.text]: the text strings below the node, joined. *)
Fixpoint text (n : node) : str :=
  match n with
  | NavigableString s => s
  | Comment _ => []
  | Tag _ _ _ cs => List.concat (List.map text cs)
  end.

(** [tag.find_all(nm)] *)
Definition find_all (nm : str) (n : node) : list element :=
  List.filter (fun e => named nm (el_node e)) (descendants n).

(** [tag.find_all(nm, recursive=False)] *)
Definition find_all_children (nm : str) (n : node) : list element :=
  List.filter (fun e => named nm (el_node e)) (children n).

(** [tag.find(nm)] *)
Definition find (nm : str) (n : node) : option element :=
  hd_error (find_all nm n).

(** [tag.find(nm, class_=c)] *)
Definition find_class (nm c : str) (n : node) : option element :=
  hd_error (List.filter (fun e => named nm (el_node e) && has_class c (el_node e))
              (descendants n)).

(** [tag.find_next_sibling()]: the next sibling that is a tag. *)
Definition find_next_sibling (e : element) : option element :=
  hd_error (List.filter (fun x => is_tag (el_node x))
              (with_siblings (next_siblings e))).

(** The simple selectors of the Mumbai path. *)
Inductive selector : Type :=
| ById (i : str)
| ByClass (c : str)
| ByType (t : str).

Definition matches (sel : selector) (n : node) : bool :=
  match sel with
  | ById i => match get (lit "id") n with
              | Some v => str_eqb v i
              | None => false
              end
  | ByClass c => has_class c n
  | ByType t => named t n
  end.

(** The selectors still to be matched below a node, given those still
    to be matched at the node: an ancestor takes the first of them, the
    last one is left for the selected element itself. *)
Definition below (pending : list selector) (n : node) : list selector :=
  match pending with
  | sel :: ((_ :: _) as rest) => if matches sel n then rest else pending
  | _ => pending
  end.

Definition selected (pending : list selector) (n : node) : bool :=
  match pending with
  | [sel] => matches sel n
  | _ => false
  end.

(** The elements below [n] that a chain of selectors joined by the
    descendant combinator selects, in document order. *)
Fixpoint select_from (pending : list selector) (n : node) : list element :=
  match n with
  | Tag _ _ _ cs =>
      (fix walk (l : list node) : list element :=
         match l with
         | [] => []
         | c :: rest =>
             (if selected pending c then [Element c rest] else [])
               ++ select_from (below pending c) c ++ walk rest
         end) cs
  | _ => []
  end.

(** [soup.select(path)] *)
Definition select (path : list selector) (soup : node) : list element :=
  select_from path soup.

(** ** Effects: exceptions, remote fetches, the log *)

(** What [requests] raises; every case is a [requests.RequestException]. *)
Inductive request_error : Type :=
| ConnectionError
| Timeout
| TooManyRedirects
| HTTPError (status_code : Z).

(** The exceptions of the module, all subclasses of [Exception]: what
    [requests] raises, what the handlers raise, what [BeautifulSoup]
    raises on markup its parser rejects, and what [urljoin] raises on a
    reference it cannot split. *)
Inductive exn : Type :=
| RequestException (e : request_error)
| HTTPException (status_code : Z) (detail : str)
| ParserRejectedMarkup
| ValueError.

(** [isinstance(e, requests.RequestException)] *)
Definition is_RequestException (e : exn) : bool :=
  match e with RequestException _ => true | _ => false end.

(** [isinstance(e, Exception)] *)
Definition is_Exception (e : exn) : bool :=
  match e with
  | RequestException _ | HTTPException _ _ | ParserRejectedMarkup | ValueError => true
  end.

Record response : Type := Response {
  status_code : Z;
  content : list Byte.byte
}.

(** What one [requests.get] call does: it raises or returns a response. *)
Inductive get_outcome : Type :=
| GetRaises (e : request_error)
| GetReturns (r : response).

(** The state a request runs in: the URLs fetched so far and the error
    lines logged so far (message prefix and exception), oldest first. *)
Record state : Type := State {
  fetched : list str;
  logged : list (str * exn)
}.

Definition initial : state := State [] [].

Inductive result (A : Type) : Type :=
| Ok (a : A)
| Raise (e : exn).

Arguments Ok {A} a.
Arguments Raise {A} e.

(** Computations that read and extend the state and may raise. *)
Definition M (A : Type) : Type := state -> result A * state.

Definition ret (A : Type) (a : A) : M A := fun s => (Ok a, s).

Definition bind (A B : Type) (c : M A) (k : A -> M B) : M B :=
  fun s => match c s with
           | (Ok a, s') => k a s'
           | (Raise e, s') => (Raise e, s')
           end.

(** [raise e] *)
Definition raise (A : Type) (e : exn) : M A := fun s => (Raise e, s).

Arguments raise {A} e.

(** A computation without effect on the state: it returns or raises. *)
Definition lift (A : Type) (r : result A) : M A := fun s => (r, s).

(** [for x in l: out.append(body x)]: the list of what the body yields,
    or the first exception it raises. *)
Fixpoint for_each (A B : Type) (body : A -> result B) (l : list A)
  : result (list B) :=
  match l with
  | [] => Ok []
  | x :: l' =>
      match body x with
      | Raise e => Raise e
      | Ok y =>
          match for_each body l' with
          | Raise e => Raise e
          | Ok ys => Ok (y :: ys)
          end
      end
  end.

(** [try: c  except <class> as e: handler e] *)
Definition try_except (A : Type) (c : M A) (class : exn -> bool)
           (handler : exn -> M A) : M A :=
  fun s => match c s with
           | (Raise e, s') => if class e then handler e s' else (Raise e, s')
           | r => r
           end.

Declare Scope py_scope.
Delimit Scope py_scope with py.
Notation "x <- c ;; k" := (bind c (fun x => k))
  (at level 100, c at next level, right associativity) : py_scope.
Notation "c ;; k" := (bind c (fun _ => k))
  (at level 100, right associativity) : py_scope.
Local Open Scope py_scope.

(** [logger.error(f"{prefix}{e}")] *)
Definition logger_error (prefix : str) (e : exn) : M unit :=
  fun s => (Ok tt, State (fetched s) (logged s ++ [(prefix, e)])).

(** [response.raise_for_status()], as the [requests] library defines
    it: an [HTTPError] when [400 <= status_code < 600], nothing for any
    other status. *)
Definition raise_for_status (r : response) : M unit :=
  if (400 <=? status_code r) && (status_code r <? 600)
  then raise (RequestException (HTTPError (status_code r)))
  else ret tt.

(** The university a scraper serves. *)
Inductive university : Type := Bangalore | Goa | Mumbai.

Definition university_name (u : university) : str :=
  match u with
  | Bangalore => lit "Bangalore"
  | Goa => lit "Goa"
  | Mumbai => lit "Mumbai"
  end.

(** The [url] constant of each scraper. *)
Definition url_of (u : university) : str :=
  match u with
  | Bangalore => lit "https://bangaloreuniversity.karnataka.gov.in/notifications"
  | Goa => lit "https://www.unigoa.ac.in/systems/c/admissions/announcementsnotices.html"
  | Mumbai => lit "https://mu.ac.in/department-announcements"
  end.

(** The prefix of the error line each scraper logs. *)
Definition fetch_error_prefix (u : university) : str :=
  match u with
  | Bangalore => lit "Error fetching Bangalore University notifications from "
  | Goa => lit "Error fetching Goa University announcements from "
  | Mumbai => lit "Error fetching Mumbai University notifications from "
  end ++ url_of u ++ lit ": ".

Definition Untitled : str := lit "Untitled".

(** The Mumbai selector,
    ['#main .entry-content .wpb_text_column ul li']. *)
Definition mumbai_path : list selector :=
  [ById (lit "main"); ByClass (lit "entry-content");
   ByClass (lit "wpb_text_column"); ByType (lit "ul"); ByType (lit "li")].

(** The response record both announcement handlers return. *)
Record page_response : Type := PageResponse {
  data : list announcement;
  total : Z;
  resp_limit : Z;
  resp_offset : Z
}.

Section App.

(** The remote sites: what a [requests.get] of a URL does, given the
    URLs fetched before it. *)
Variable net : list str -> str -> get_outcome.

(** [BeautifulSoup(content, 'html.parser')]: the tree, or [None] when
    the constructor raises [ParserRejectedMarkup]. *)
Variable html_parser : list Byte.byte -> option node.

(** [urllib.parse.urljoin]: the joined URL, or [None] when the call
    raises [ValueError]. *)
Variable urljoin : str -> str -> option str.

(** [str.lower] *)
Variable lower : str -> str.

(** [requests.get(url, timeout=10)] *)
Definition requests_get (url : str) : M response :=
  fun s =>
    let s' := State (fetched s ++ [url]) (logged s) in
    match net (fetched s) url with
    | GetRaises e => (Raise (RequestException e), s')
    | GetReturns r => (Ok r, s')
    end.

(** [BeautifulSoup(response.content, 'html.parser')] *)
Definition BeautifulSoup (markup : list Byte.byte) : M node :=
  match html_parser markup with
  | Some soup => ret soup
  | None => raise ParserRejectedMarkup
  end.

(** [urljoin(url, href)] *)
Definition join (url href : str) : result str :=
  match urljoin url href with
  | Some link => Ok link
  | None => Raise ValueError
  end.

(** The opening of each scraper: fetch the page inside the [try], or
    log the error and give up ([None] stands for the early
    [return []]); then, outside the [try], parse the body. *)
Definition fetch_soup (u : university) : M (option node) :=
  fetched_page <-
    try_except
      (response <- requests_get (url_of u) ;;
       raise_for_status response ;;
       ret (Some response))
      is_RequestException
      (fun e => logger_error (fetch_error_prefix u) e ;; ret None) ;;
  match fetched_page with
  | None => ret None
  | Some response =>
      soup <- BeautifulSoup (content response) ;;
      ret (Some soup)
  end.

(** *** Bangalore *)

(** The body of the loop over the list items. *)
Definition bangalore_item (item : element) : result announcement :=
  let link_tag := find (lit "a") (el_node item) in
  match link_tag with
  | Some a =>
      match get (lit "href") (el_node a) with
      | Some ((_ :: _) as href) =>
          let title := or_else (strip (text (el_node a))) Untitled in
          match join (url_of Bangalore) href with
          | Raise e => Raise e
          | Ok link =>
              Ok [("university", PyStr (lit "Bangalore"));
                  ("title", PyStr title);
                  ("description", PyNone);
                  ("link", PyStr link)]
          end
      | _ =>
          Ok [("university", PyStr (lit "Bangalore"));
              ("title", PyStr (or_else (strip (text (el_node item))) Untitled));
              ("description", PyNone);
              ("link", PyNone)]
      end
  | None =>
      Ok [("university", PyStr (lit "Bangalore"));
          ("title", PyStr (or_else (strip (text (el_node item))) Untitled));
          ("description", PyNone);
          ("link", PyNone)]
  end%string.

(** The list items the Bangalore loop runs over. *)
Definition bangalore_items (soup : node) : list element :=
  match find_class (lit "div") (lit "container") soup with
  | Some container =>
      match find (lit "ul") (el_node container) with
      | Some unordered_list =>
          find_all_children (lit "li") (el_node unordered_list)
      | None => []
      end
  | None => []
  end.

Definition bangalore_notifications (soup : node) : result (list announcement) :=
  for_each bangalore_item (bangalore_items soup).

Definition scrape_bangalore_notifications : M (list announcement) :=
  page <- fetch_soup Bangalore ;;
  match page with
  | None => ret []
  | Some soup => lift (bangalore_notifications soup)
  end.

(** *** Goa *)

(** The body of the loop over the headings. *)
Definition goa_item (h4 : element) : announcement :=
  let title := or_else (strip (text (el_node h4))) Untitled in
  let next_element := find_next_sibling h4 in
  let details :=
    match next_element with
    | Some e =>
        if named (lit "ul") (el_node e)
        then List.map (fun li => strip (text (el_node li)))
               (find_all (lit "li") (el_node e))
        else []
    | None => []
    end in
  [("university", PyStr (lit "Goa"));
   ("title", PyStr title);
   ("details", PyList details)]%string.

(** The headings the Goa loop runs over. *)
Definition goa_items (soup : node) : list element :=
  match find_class (lit "div") (lit "details1") soup with
  | Some inside_wrapper =>
      match find_class (lit "div") (lit "details1_left") (el_node inside_wrapper) with
      | Some details1_left => find_all (lit "h4") (el_node details1_left)
      | None => []
      end
  | None => []
  end.

Definition goa_notifications (soup : node) : list announcement :=
  List.map goa_item (goa_items soup).

Definition scrape_goa_notifications : M (list announcement) :=
  page <- fetch_soup Goa ;;
  match page with
  | None => ret []
  | Some soup => ret (goa_notifications soup)
  end.

(** *** Mumbai *)

(** The body of the loop over the selected list items. *)
Definition mumbai_item (li : element) : result announcement :=
  let a_tag := find (lit "a") (el_node li) in
  match a_tag with
  | Some a =>
      match get (lit "href") (el_node a) with
      | Some ((_ :: _) as href) =>
          let title := or_else (strip (text (el_node a))) Untitled in
          match join (url_of Mumbai) href with
          | Raise e => Raise e
          | Ok link =>
              Ok [("university", PyStr (lit "Mumbai"));
                  ("title", PyStr title);
                  ("link", PyStr link)]
          end
      | _ =>
          Ok [("university", PyStr (lit "Mumbai"));
              ("title", PyStr (or_else (strip (text (el_node li))) Untitled));
              ("link", PyNone)]
      end
  | None =>
      Ok [("university", PyStr (lit "Mumbai"));
          ("title", PyStr (or_else (strip (text (el_node li))) Untitled));
          ("link", PyNone)]
  end%string.

Definition mumbai_items (soup : node) : list element :=
  select mumbai_path soup.

Definition mumbai_notifications (soup : node) : result (list announcement) :=
  for_each mumbai_item (mumbai_items soup).

Definition scrape_mumbai_notifications : M (list announcement) :=
  page <- fetch_soup Mumbai ;;
  match page with
  | None => ret []
  | Some soup => lift (mumbai_notifications soup)
  end.

(** *** The announcement handlers *)

Definition internal_server_error : exn :=
  HTTPException 500 (lit "Internal server error").

(** [GET /announcements] *)
Definition get_all_announcements (limit offset : Z) : M page_response :=
  try_except
    (bangalore <- scrape_bangalore_notifications ;;
     goa <- scrape_goa_notifications ;;
     mumbai <- scrape_mumbai_notifications ;;
     let all_announcements := bangalore ++ goa ++ mumbai in
     match all_announcements with
     | [] => raise (HTTPException 404 (lit "No announcements found"))
     | _ :: _ =>
         let total := Z.of_nat (List.length all_announcements) in
         let paginated := py_slice all_announcements offset (offset + limit) in
         ret (PageResponse paginated total limit offset)
     end)
    is_Exception
    (fun e =>
       logger_error (lit "Error in get_all_announcements: ") e ;;
       raise internal_server_error).

(** The [scrapers] dictionary. *)
Definition scrapers : list (str * M (list announcement)) :=
  [(lit "bangalore", scrape_bangalore_notifications);
   (lit "goa", scrape_goa_notifications);
   (lit "mumbai", scrape_mumbai_notifications)].

(** [scrapers[key]], [None] when [key not in scrapers]. *)
Definition lookup (key : str) : option (M (list announcement)) :=
  option_map snd (List.find (fun kv => str_eqb (fst kv) key) scrapers).

(** [GET /announcements/{university}] *)
Definition get_university_announcements (university : str) (limit offset : Z)
  : M page_response :=
  let university_key := lower university in
  match lookup university_key with
  | None =>
      raise (HTTPException 404
               (lit "University '" ++ university ++ lit "' not found"))
  | Some scraper =>
      try_except
        (announcements <- scraper ;;
         match announcements with
         | [] =>
             raise (HTTPException 404
                      (lit "No announcements found for " ++ university))
         | _ :: _ =>
             let total := Z.of_nat (List.length announcements) in
             let paginated := py_slice announcements offset (offset + limit) in
             ret (PageResponse paginated total limit offset)
         end)
        is_Exception
        (fun e =>
           logger_error
             (lit "Error in get_university_announcements for " ++ university ++ lit ": ") e ;;
           raise internal_server_error)
  end.

(** The scraper of a university, for statements about all three. *)
Definition scraper_of (u : university) : M (list announcement) :=
  match u with
  | Bangalore => scrape_bangalore_notifications
  | Goa => scrape_goa_notifications
  | Mumbai => scrape_mumbai_notifications
  end.

(** What the scraper of a university extracts from a parsed page. *)
Definition notifications_of (u : university) (soup : node)
  : result (list announcement) :=
  match u with
  | Bangalore => bangalore_notifications soup
  | Goa => Ok (goa_notifications soup)
  | Mumbai => mumbai_notifications soup
  end.

End App.

(** The key of a university in the [scrapers] dictionary. *)
Definition key_of (u : university) : str :=
  match u with
  | Bangalore => lit "bangalore"
  | Goa => lit "goa"
  | Mumbai => lit "mumbai"
  end.

(** The status codes [raise_for_status] raises for. *)
Definition error_status (status : Z) : Prop := 400 <= status < 600.


(** The state after a scraper fetched its page. *)
Definition after_fetch (u : university) (s : state) : state :=
  State (fetched s ++ [url_of u]) (logged s).

(** The state after a scraper fetched its page and logged [e]. *)
Definition after_failed_fetch (u : university) (e : request_error) (s : state) : state :=
  State (fetched s ++ [url_of u])
        (logged s ++ [(fetch_error_prefix u, RequestException e)]).

(** The state after a handler logged the exception it caught. *)
Definition after_handler_error (prefix : str) (e : exn) (s : state) : state :=
  State (fetched s) (logged s ++ [(prefix, e)]).

(** The node whose text becomes the title of a list item: the first
    anchor below the item when it carries a non-empty [href], the
    item itself otherwise. *)
Definition title_node (item : element) : node :=
  match find (lit "a") (el_node item) with
  | Some a =>
      match get (lit "href") (el_node a) with
      | Some (_ :: _) => el_node a
      | _ => el_node item
      end
  | None => el_node item
  end.

(** The field shape of each source. *)
Definition shape (u : university) (r : announcement) : Prop :=
  dict_get "university" r = Some (PyStr (university_name u)) /\
  match u with
  | Bangalore =>
      keys r = ["university"; "title"; "description"; "link"]%string /\
      dict_get "details" r = None
  | Goa =>
      keys r = ["university"; "title"; "details"]%string /\
      dict_get "link" r = None /\ dict_get "description" r = None
  | Mumbai =>
      keys r = ["university"; "title"; "link"]%string /\
      dict_get "details" r = None /\ dict_get "description" r = None
  end.

(** ** Sample sites

    Concrete pages, remote sites and library functions on which the
    scrapers and handlers can be run. *)

Module Sample.

Definition txt (s : string) : node := NavigableString (lit s).

Definition tag (nm : string) (contents : list node) : node :=
  Tag (lit nm) [] [] contents.

Definition div (c : string) (contents : list node) : node :=
  Tag (lit "div") [lit c] [] contents.

Definition a_href (href : string) (contents : list node) : node :=
  Tag (lit "a") [] [(lit "href", lit href)] contents.

Definition document (contents : list node) : node :=
  Tag (lit "[document]") [] [] contents.

(** A list item whose anchor has no [href]. *)
Definition item_anchor_without_href : node :=
  tag "li" [txt "Notice "; Tag (lit "a") [] [(lit "name", lit "n2")] [txt "here"]].

Definition bangalore_page : node :=
  document
    [div "container"
       [tag "ul"
          [tag "li" [a_href "https://example.org/1.pdf" [txt " Admission notice "]];
           item_anchor_without_href;
           tag "li" [txt "   "]]]].

(** A heading with blanks around its text, followed by a list. *)
Definition heading_fees : node := tag "h4" [txt " Fees "].

Definition goa_page : node :=
  document
    [div "details1"
       [div "details1_left"
          [heading_fees;
           txt " ";
           tag "ul" [tag "li" [txt " First "]; tag "li" [txt "Second"]];
           tag "h4" [txt "Dates"];
           tag "p" [txt "to be announced"]]]].

Definition mumbai_page : node :=
  document
    [Tag (lit "div") [] [(lit "id", lit "main")]
       [div "entry-content"
          [div "wpb_text_column"
             [tag "ul"
                [tag "li" [a_href "https://example.org/m1" [txt "Circular"]];
                 tag "li" [txt "Holiday"]]]]]].

(** A page with none of the anchors the scrapers look for. *)
Definition blank_page : node := document [tag "p" [txt "Under maintenance"]].

(** The body [<![ ]], which the parser rejects. *)
Definition rejected_body : list Byte.byte :=
  [Byte.x3c; Byte.x21; Byte.x5b; Byte.x20; Byte.x5d].

(** A stand-in for the parser: the first byte of the body names the
    page, and a body that opens with [<![] is rejected. *)
Definition html_parser (body : list Byte.byte) : option node :=
  match body with
  | Byte.x42 :: _ => Some bangalore_page
  | Byte.x47 :: _ => Some goa_page
  | Byte.x4d :: _ => Some mumbai_page
  | Byte.x3c :: Byte.x21 :: Byte.x5b :: _ => None
  | _ => Some blank_page
  end.

Definition body_of (u : university) : list Byte.byte :=
  match u with
  | Bangalore => [Byte.x42]
  | Goa => [Byte.x47]
  | Mumbai => [Byte.x4d]
  end.

Definition site_of (url : str) : option university :=
  if str_eqb url (url_of Bangalore) then Some Bangalore
  else if str_eqb url (url_of Goa) then Some Goa
  else if str_eqb url (url_of Mumbai) then Some Mumbai
  else None.

(** Every site answers with the given status and its page. *)
Definition net_status (status : Z) (history : list str) (url : str) : get_outcome :=
  match site_of url with
  | Some u => GetReturns (Response status (body_of u))
  | None => GetRaises ConnectionError
  end.

Definition net_up := net_status 200.


(** No site can be reached. *)
Definition net_down (history : list str) (url : str) : get_outcome :=
  GetRaises ConnectionError.

(** Every site answers 200 with the body the parser rejects. *)
Definition net_rejected (history : list str) (url : str) : get_outcome :=
  GetReturns (Response 200 rejected_body).

(** [urljoin] on absolute references; the reference [http://[] is one
    it raises [ValueError] on. *)
Definition urljoin (base href : str) : option str :=
  if str_eqb href (lit "http://[") then None else Some href.

(** The list a result holds, for results that are known to be lists. *)
Definition records (r : result (list announcement)) : list announcement :=
  match r with
  | Ok l => l
  | Raise _ => []
  end.

(** The record a result holds, for results that are known to be
    records. *)
Definition record (r : result announcement) : announcement :=
  match r with
  | Ok a => a
  | Raise _ => []
  end.

(** A list item whose link has an [href] that [urljoin] raises on. *)
Definition item_bad_href : node :=
  tag "li" [a_href "http://[" [txt "Broken"]].

(** A Bangalore page whose second list item has such a link. *)
Definition bangalore_page_bad_href : node :=
  document
    [div "container"
       [tag "ul"
          [tag "li" [a_href "https://example.org/1.pdf" [txt "Admission notice"]];
           item_bad_href]]].

Definition page_of (u : university) : node :=
  match u with
  | Bangalore => bangalore_page
  | Goa => goa_page
  | Mumbai => mumbai_page
  end.

(** What the scraper of [u] extracts from the sample page of [u]. *)
Definition extracted (u : university) : result (list announcement) :=
  notifications_of urljoin u (page_of u).

(** [str.lower] on ASCII strings. *)
Definition lower (s : str) : str :=
  List.map (fun c => if ((65 <=? c) && (c <=? 90))%N then (c + 32)%N else c) s.

End Sample.

(** ** The static endpoints *)

(** [GET /] *)
Definition root : list (string * str) :=
  [("message"%string, lit "Welcome to the Admission Announcements API")].

(** [GET /health] *)
Definition health_check : list (string * str) :=
  [("status"%string, lit "ok")].

(** [GET /universities] *)
Definition get_universities : list (string * list str) :=
  [("data"%string, [lit "Bangalore"; lit "Goa"; lit "Mumbai"])].

(** The [data] list of [GET /universities]. *)
Definition supported_universities : list str :=
  List.concat (List.map snd get_universities).

(** ** Vocabulary of the further properties *)

(** A string made of whitespace only. *)
Definition blank (s : str) : Prop := Forall (fun c => isspace c = true) s.

(** A string that neither starts nor ends with whitespace. *)
Definition trimmed (t : str) : Prop :=
  (forall c rest, t = c :: rest -> isspace c = false) /\
  (forall c init, t = init ++ [c] -> isspace c = false).

(** The title stored in a record. *)
Definition title_of (r : announcement) : option str :=
  match dict_get "title" r with
  | Some (PyStr t) => Some t
  | _ => None
  end.

(** The node whose text a scraper turns into the title of an item. *)
Definition title_source (u : university) (item : element) : node :=
  match u with
  | Goa => el_node item
  | Bangalore | Mumbai => title_node item
  end.

(** The items a scraper's loop runs over. *)
Definition items_of (u : university) (soup : node) : list element :=
  match u with
  | Bangalore => bangalore_items soup
  | Goa => goa_items soup
  | Mumbai => mumbai_items soup
  end.

(** The loop body of a scraper. *)
Definition item_of (urljoin : str -> str -> option str) (u : university)
  (item : element) : result announcement :=
  match u with
  | Bangalore => bangalore_item urljoin item
  | Goa => Ok (goa_item item)
  | Mumbai => mumbai_item urljoin item
  end.

(** The first link of an item has a non-empty [href] that [urljoin]
    raises on, against the base URL of [u]. *)
Definition link_rejected (urljoin : str -> str -> option str) (u : university)
  (item : element) : Prop :=
  exists a href,
    find (lit "a") (el_node item) = Some a /\
    get (lit "href") (el_node a) = Some href /\
    href <> [] /\
    urljoin (url_of u) href = None.

(** The tag name of the items a scraper's loop runs over. *)
Definition item_tag (u : university) : str :=
  match u with
  | Bangalore | Mumbai => lit "li"
  | Goa => lit "h4"
  end.

(** The remote sites answer a URL the same way whatever was fetched
    before. *)
Definition stateless (net : list str -> str -> get_outcome) : Prop :=
  forall history1 history2 url, net history1 url = net history2 url.

(** Induction on a document tree, with the property available for
    every node of the contents. *)
Fixpoint node_tree_ind (P : node -> Prop)
    (Hstring : forall s, P (NavigableString s))
    (Hcomment : forall s, P (Comment s))
    (Htag : forall nm cl attrs cs, Forall P cs -> P (Tag nm cl attrs cs))
    (n : node) : P n :=
  match n with
  | NavigableString s => Hstring s
  | Comment s => Hcomment s
  | Tag nm cl attrs cs =>
      Htag nm cl attrs cs
        ((fix all (l : list node) : Forall P l :=
            match l with
            | [] => Forall_nil P
            | c :: rest =>
                Forall_cons c (node_tree_ind Hstring Hcomment Htag c) (all rest)
            end) cs)
  end.

(** The last selector of a chain is the type selector [li]. *)
Definition ends_with_li (pending : list selector) : Prop :=
  exists init, pending = init ++ [ByType (lit "li")].

(** Sites where only Mumbai answers: Bangalore cannot be reached and
    Goa answers 503. *)
Definition net_only_mumbai (history : list str) (url : str) : get_outcome :=
  match Sample.site_of url with
  | Some Mumbai => GetReturns (Response 200 (Sample.body_of Mumbai))
  | Some Goa => GetReturns (Response 503 [])
  | _ => GetRaises Timeout
  end.

(** * Properties *)

(** ** Strings *)

Lemma str_eqb_eq (a b : str) : str_eqb a b = true <-> a = b.
Proof.
  unfold str_eqb. destruct (list_eq_dec N.eq_dec a b); split; congruence.
Qed.

Lemma str_eqb_refl (a : str) : str_eqb a a = true.
Proof. now apply str_eqb_eq. Qed.

Lemma str_eqb_neq (a b : str) : str_eqb a b = false <-> a <> b.
Proof.
  unfold str_eqb. destruct (list_eq_dec N.eq_dec a b); split; congruence.
Qed.

Lemma or_else_nonempty (a b : str) : b <> [] -> or_else a b <> [].
Proof.
  intros Hb. unfold or_else. destruct a; simpl; [assumption | discriminate].
Qed.

Lemma Untitled_nonempty : Untitled <> [].
Proof. discriminate. Qed.

(** ** Slicing *)

Section Slicing.

Variable A : Type.
Implicit Types s : list A.

Lemma page_take_drop s limit offset :
  1 <= limit -> 0 <= offset ->
  page s limit offset = firstn (Z.to_nat limit) (skipn (Z.to_nat offset) s).
Proof.
  intros Hl Ho. unfold page, py_slice, slice_index.
  destruct (Z.ltb_spec offset 0); [lia|].
  destruct (Z.ltb_spec (offset + limit) 0); [lia|].
  set (len := Z.of_nat (List.length s)).
  destruct (Z.le_gt_cases len offset) as [Hge | Hlt].
  - rewrite (Z.min_r offset len) by lia.
    rewrite (Z.min_r (offset + limit) len) by lia.
    rewrite Z.sub_diag. simpl.
    rewrite !skipn_all2 by (subst len; lia).
    now rewrite firstn_nil.
  - rewrite (Z.min_l offset len) by lia.
    destruct (Z.le_gt_cases (offset + limit) len) as [Hin | Hout].
    + rewrite Z.min_l by lia. f_equal. lia.
    + rewrite Z.min_r by lia.
      rewrite !firstn_all2; try reflexivity;
        rewrite length_skipn; subst len; lia.
Qed.

Lemma page_length s limit offset :
  1 <= limit -> 0 <= offset ->
  Z.of_nat (List.length (page s limit offset))
  = Z.min limit (Z.max 0 (Z.of_nat (List.length s) - offset)).
Proof.
  intros Hl Ho. rewrite page_take_drop by assumption.
  rewrite length_firstn, length_skipn. lia.
Qed.

Lemma pages_take s limit n :
  1 <= limit ->
  List.concat (pages s limit n) = firstn (n * Z.to_nat limit) s.
Proof.
  intros Hl. unfold pages. induction n as [| n IH].
  - reflexivity.
  - rewrite seq_S, map_app, concat_app, IH. simpl.
    rewrite app_nil_r, page_take_drop by lia.
    replace (Z.to_nat (Z.of_nat n * limit)) with (n * Z.to_nat limit)%nat by lia.
    replace (Z.to_nat limit + n * Z.to_nat limit)%nat
      with (n * Z.to_nat limit + Z.to_nat limit)%nat by lia.
    rewrite <- (firstn_skipn (n * Z.to_nat limit)
                  (firstn (n * Z.to_nat limit + Z.to_nat limit) s)).
    rewrite firstn_firstn, Nat.min_l by lia.
    f_equal. rewrite skipn_firstn_comm. f_equal. lia.
Qed.

End Slicing.

(** C2. With [limit >= 1] and [offset >= 0], the slice
    [S[offset : offset+limit]] has length
    [min(limit, max(0, len(S) - offset))], and the slices taken at the
    successive offsets [0], [limit], [2*limit], ... concatenate back to
    [S], as soon as they reach the end of [S]. *)
Theorem page_length_and_reconstruction :
  forall (A : Type) (S : list A) (limit offset : Z),
    1 <= limit -> 0 <= offset ->
    Z.of_nat (List.length (py_slice S offset (offset + limit)))
    = Z.min limit (Z.max 0 (Z.of_nat (List.length S) - offset)) /\
    forall n : nat,
      Z.of_nat (List.length S) <= Z.of_nat n * limit ->
      List.concat (pages S limit n) = S.
Proof.
  intros A S limit offset Hl Ho. split.
  - apply (@page_length A S limit offset); assumption.
  - intros n Hn. rewrite pages_take by assumption.
    apply firstn_all2. nia.
Qed.

Lemma page_length_and_reconstruction_witness :
  Z.of_nat (List.length (py_slice [10; 20; 30; 40; 50] 3 (3 + 4)))
  = Z.min 4 (Z.max 0 (Z.of_nat (List.length [10; 20; 30; 40; 50]) - 3)) /\
  List.concat (pages [10; 20; 30; 40; 50] 2 3) = [10; 20; 30; 40; 50].
Proof.
  destruct (@page_length_and_reconstruction Z [10; 20; 30; 40; 50] 4 3) as [Hlen _];
    [lia | lia |].
  destruct (@page_length_and_reconstruction Z [10; 20; 30; 40; 50] 2 0) as [_ Hcat];
    [lia | lia |].
  split; [exact Hlen | apply Hcat; simpl; lia].
Defined.

Lemma py_slice_past_end (A : Type) (s : list A) (offset stop : Z) :
  Z.of_nat (List.length s) <= offset -> py_slice s offset stop = [].
Proof.
  intros H. unfold py_slice, slice_index.
  destruct (Z.ltb_spec offset 0); [lia|].
  rewrite (Z.min_r offset) by lia.
  rewrite skipn_all2 by lia. apply firstn_nil.
Qed.

Lemma py_slice_whole (A : Type) (s : list A) (limit : Z) :
  Z.of_nat (List.length s) <= limit -> py_slice s 0 (0 + limit) = s.
Proof.
  intros H. unfold py_slice, slice_index.
  change (0 + limit) with limit. change (0 <? 0) with false.
  destruct (Z.ltb_spec limit 0); [lia|].
  rewrite Z.min_r, Z.min_l by lia.
  rewrite Z.sub_0_r. change (Z.to_nat 0) with 0%nat.
  rewrite Nat2Z.id. apply firstn_all.
Qed.

(** ** The scrapers *)

Lemma for_each_ok (A B : Type) (body : A -> result B) (l : list A) (ys : list B) :
  for_each body l = Ok ys ->
  Forall2 (fun x y => body x = Ok y) l ys.
Proof.
  revert ys. induction l as [| x l IH]; simpl; intros ys H.
  - injection H as <-. constructor.
  - destruct (body x) as [y | e] eqn:Hx; [| discriminate].
    destruct (for_each body l) as [ys' | e]; [| discriminate].
    injection H as <-. constructor; [exact Hx | now apply IH].
Qed.

Lemma for_each_raise (A B : Type) (body : A -> result B) (l : list A) (e : exn) :
  for_each body l = Raise e ->
  exists x, In x l /\ body x = Raise e.
Proof.
  induction l as [| x l IH]; simpl; intros H; [discriminate|].
  destruct (body x) as [y | e'] eqn:Hx.
  - destruct (for_each body l) as [ys | e'']; [discriminate|].
    injection H as ->. destruct (IH eq_refl) as [x' [Hin Hx']].
    exists x'. split; [now right | exact Hx'].
  - injection H as ->. exists x. split; [now left | exact Hx].
Qed.

Lemma for_each_all_ok (A B : Type) (body : A -> result B) (l : list A) :
  (forall x, In x l -> exists y, body x = Ok y) ->
  exists ys, for_each body l = Ok ys.
Proof.
  induction l as [| x l IH]; simpl; intros H.
  - now exists [].
  - destruct (H x (or_introl eq_refl)) as [y Hy]. rewrite Hy.
    destruct IH as [ys Hys]; [intros x' Hx'; apply H; now right|].
    rewrite Hys. now exists (y :: ys).
Qed.




Section Scrapers.

Variable net : list str -> str -> get_outcome.
Variable html_parser : list Byte.byte -> option node.
Variable urljoin : str -> str -> option str.

Lemma raise_for_status_error (r : response) (s : state) :
  error_status (status_code r) ->
  raise_for_status r s = (Raise (RequestException (HTTPError (status_code r))), s).
Proof.
  unfold error_status, raise_for_status. intros H.
  destruct (Z.leb_spec 400 (status_code r)); [|lia].
  destruct (Z.ltb_spec (status_code r) 600); [|lia].
  reflexivity.
Qed.

Lemma raise_for_status_pass (r : response) (s : state) :
  ~ error_status (status_code r) ->
  raise_for_status r s = (Ok tt, s).
Proof.
  unfold error_status, raise_for_status. intros H.
  destruct (Z.leb_spec 400 (status_code r));
    destruct (Z.ltb_spec (status_code r) 600); try reflexivity; lia.
Qed.

Lemma error_status_dec (status : Z) : {error_status status} + {~ error_status status}.
Proof.
  unfold error_status.
  destruct (Z_le_dec 400 status); destruct (Z_lt_dec status 600);
    (left; lia) || (right; lia).
Qed.

(** The ways the opening of a scraper can go. *)
Lemma fetch_soup_raises (u : university) (s : state) (e : request_error) :
  net (fetched s) (url_of u) = GetRaises e ->
  fetch_soup net html_parser u s = (Ok None, after_failed_fetch u e s).
Proof.
  intros H. unfold fetch_soup, try_except, bind, requests_get. rewrite H.
  reflexivity.
Qed.

Lemma fetch_soup_error_status (u : university) (s : state) (r : response) :
  net (fetched s) (url_of u) = GetReturns r ->
  error_status (status_code r) ->
  fetch_soup net html_parser u s
  = (Ok None, after_failed_fetch u (HTTPError (status_code r)) s).
Proof.
  intros H Hst. unfold fetch_soup, try_except, bind, requests_get. rewrite H.
  rewrite raise_for_status_error by assumption. reflexivity.
Qed.

Lemma fetch_soup_page (u : university) (s : state) (r : response) (soup : node) :
  net (fetched s) (url_of u) = GetReturns r ->
  ~ error_status (status_code r) ->
  html_parser (content r) = Some soup ->
  fetch_soup net html_parser u s = (Ok (Some soup), after_fetch u s).
Proof.
  intros H Hst Hp. unfold fetch_soup, try_except, bind, requests_get. rewrite H.
  rewrite raise_for_status_pass by assumption.
  cbn. unfold BeautifulSoup. rewrite Hp. reflexivity.
Qed.

Lemma fetch_soup_rejected (u : university) (s : state) (r : response) :
  net (fetched s) (url_of u) = GetReturns r ->
  ~ error_status (status_code r) ->
  html_parser (content r) = None ->
  fetch_soup net html_parser u s = (Raise ParserRejectedMarkup, after_fetch u s).
Proof.
  intros H Hst Hp. unfold fetch_soup, try_except, bind, requests_get. rewrite H.
  rewrite raise_for_status_pass by assumption.
  cbn. unfold BeautifulSoup. rewrite Hp. reflexivity.
Qed.

Lemma scraper_of_unfold (u : university) :
  scraper_of net html_parser urljoin u
  = bind (fetch_soup net html_parser u)
      (fun page => match page with
                   | None => ret []
                   | Some soup => lift (notifications_of urljoin u soup)
                   end).
Proof. destruct u; reflexivity. Qed.

Lemma scraper_raises (u : university) (s : state) (e : request_error) :
  net (fetched s) (url_of u) = GetRaises e ->
  scraper_of net html_parser urljoin u s = (Ok [], after_failed_fetch u e s).
Proof.
  intros H. rewrite scraper_of_unfold. unfold bind.
  now rewrite (fetch_soup_raises u s H).
Qed.

Lemma scraper_error_status (u : university) (s : state) (r : response) :
  net (fetched s) (url_of u) = GetReturns r ->
  error_status (status_code r) ->
  scraper_of net html_parser urljoin u s
  = (Ok [], after_failed_fetch u (HTTPError (status_code r)) s).
Proof.
  intros H Hst. rewrite scraper_of_unfold. unfold bind.
  now rewrite (fetch_soup_error_status u s H Hst).
Qed.

Lemma scraper_page (u : university) (s : state) (r : response) (soup : node) :
  net (fetched s) (url_of u) = GetReturns r ->
  ~ error_status (status_code r) ->
  html_parser (content r) = Some soup ->
  scraper_of net html_parser urljoin u s
  = (notifications_of urljoin u soup, after_fetch u s).
Proof.
  intros H Hst Hp. rewrite scraper_of_unfold. unfold bind.
  now rewrite (fetch_soup_page u s H Hst Hp).
Qed.

Lemma scraper_rejected (u : university) (s : state) (r : response) :
  net (fetched s) (url_of u) = GetReturns r ->
  ~ error_status (status_code r) ->
  html_parser (content r) = None ->
  scraper_of net html_parser urljoin u s
  = (Raise ParserRejectedMarkup, after_fetch u s).
Proof.
  intros H Hst Hp. rewrite scraper_of_unfold. unfold bind.
  now rewrite (fetch_soup_rejected u s H Hst Hp).
Qed.

(** A scraper fetches its URL once, and then returns the empty list,
    raises what the parser raised, or does what the loop over the
    parsed page does. *)
Lemma scraper_outcome (u : university) (s : state) :
  exists res s',
    scraper_of net html_parser urljoin u s = (res, s') /\
    fetched s' = fetched s ++ [url_of u] /\
    (res = Ok [] \/
     (res = Raise ParserRejectedMarkup /\ s' = after_fetch u s) \/
     (exists soup, res = notifications_of urljoin u soup /\ s' = after_fetch u s)).
Proof.
  destruct (net (fetched s) (url_of u)) as [e | r] eqn:H.
  - eexists _, _. split; [apply (scraper_raises u s H)|].
    split; [reflexivity | now left].
  - destruct (error_status_dec (status_code r)) as [Hst | Hst].
    + eexists _, _. split; [apply (scraper_error_status u s H Hst)|].
      split; [reflexivity | now left].
    + destruct (html_parser (content r)) as [soup |] eqn:Hp.
      * eexists _, _. split; [apply (scraper_page u s H Hst Hp)|].
        split; [reflexivity | right; right; eauto].
      * eexists _, _. split; [apply (scraper_rejected u s H Hst Hp)|].
        split; [reflexivity | right; left; auto].
Qed.


End Scrapers.



(** ** The records *)

Lemma Forall2_Forall_r (A B : Type) (R : A -> B -> Prop) (xs : list A) (ys : list B) :
  Forall2 R xs ys -> Forall (fun y => exists x, In x xs /\ R x y) ys.
Proof.
  induction 1 as [| x y xs ys Hxy _ IH]; constructor.
  - exists x. split; [now left | exact Hxy].
  - eapply Forall_impl; [| exact IH].
    intros y' [x' [Hin Hr]]. exists x'. split; [now right | exact Hr].
Qed.

Section Records.

Variable urljoin : str -> str -> option str.

(** What the loop body of the Bangalore scraper does with an item. *)
Lemma bangalore_item_ok (item : element) (r : announcement) :
  bangalore_item urljoin item = Ok r ->
  dict_get "title" r
  = Some (PyStr (or_else (strip (text (title_node item))) Untitled)) /\
  shape Bangalore r /\
  dict_get "description" r = Some PyNone /\
  (dict_get "link" r = Some PyNone \/
   exists href link,
     href <> [] /\ urljoin (url_of Bangalore) href = Some link /\
     dict_get "link" r = Some (PyStr link)).
Proof.
  unfold bangalore_item, title_node, join.
  destruct (find (lit "a") (el_node item)) as [a |].
  - destruct (get (lit "href") (el_node a)) as [[| c href] |].
    + intros H. injection H as <-. repeat split; now left.
    + destruct (urljoin (url_of Bangalore) (c :: href)) as [link |] eqn:E;
        [| discriminate].
      intros H. injection H as <-. repeat split.
      right. exists (c :: href), link. repeat split; [discriminate | exact E].
    + intros H. injection H as <-. repeat split; now left.
  - intros H. injection H as <-. repeat split; now left.
Qed.

Lemma bangalore_item_raise (item : element) (e : exn) :
  bangalore_item urljoin item = Raise e ->
  e = ValueError /\ link_rejected urljoin Bangalore item.
Proof.
  unfold bangalore_item, link_rejected, join.
  destruct (find (lit "a") (el_node item)) as [a |]; [| discriminate].
  destruct (get (lit "href") (el_node a)) as [[| c href] |] eqn:Hh;
    try discriminate.
  destruct (urljoin (url_of Bangalore) (c :: href)) as [link |] eqn:E;
    [discriminate|].
  intros H. injection H as <-. split; [reflexivity|].
  exists a, (c :: href). repeat split; try assumption. discriminate.
Qed.

Lemma mumbai_item_ok (li : element) (r : announcement) :
  mumbai_item urljoin li = Ok r ->
  dict_get "title" r
  = Some (PyStr (or_else (strip (text (title_node li))) Untitled)) /\
  shape Mumbai r /\
  (dict_get "link" r = Some PyNone \/
   exists href link,
     href <> [] /\ urljoin (url_of Mumbai) href = Some link /\
     dict_get "link" r = Some (PyStr link)).
Proof.
  unfold mumbai_item, title_node, join.
  destruct (find (lit "a") (el_node li)) as [a |].
  - destruct (get (lit "href") (el_node a)) as [[| c href] |].
    + intros H. injection H as <-. repeat split; now left.
    + destruct (urljoin (url_of Mumbai) (c :: href)) as [link |] eqn:E;
        [| discriminate].
      intros H. injection H as <-. repeat split.
      right. exists (c :: href), link. repeat split; [discriminate | exact E].
    + intros H. injection H as <-. repeat split; now left.
  - intros H. injection H as <-. repeat split; now left.
Qed.

Lemma mumbai_item_raise (li : element) (e : exn) :
  mumbai_item urljoin li = Raise e ->
  e = ValueError /\ link_rejected urljoin Mumbai li.
Proof.
  unfold mumbai_item, link_rejected, join.
  destruct (find (lit "a") (el_node li)) as [a |]; [| discriminate].
  destruct (get (lit "href") (el_node a)) as [[| c href] |] eqn:Hh;
    try discriminate.
  destruct (urljoin (url_of Mumbai) (c :: href)) as [link |] eqn:E;
    [discriminate|].
  intros H. injection H as <-. split; [reflexivity|].
  exists a, (c :: href). repeat split; try assumption. discriminate.
Qed.

Lemma goa_item_shape (h4 : element) : shape Goa (goa_item h4).
Proof. repeat split. Qed.

Lemma item_ok_shape (u : university) (item : element) (r : announcement) :
  item_of urljoin u item = Ok r -> shape u r.
Proof.
  destruct u; simpl; intros H.
  - now apply (bangalore_item_ok item).
  - injection H as <-. apply goa_item_shape.
  - now apply (mumbai_item_ok item).
Qed.

Lemma item_ok_title (u : university) (item : element) (r : announcement) :
  item_of urljoin u item = Ok r ->
  dict_get "title" r
  = Some (PyStr (or_else (strip (text (title_source u item))) Untitled)).
Proof.
  destruct u; simpl; intros H.
  - now apply (bangalore_item_ok item).
  - now injection H as <-.
  - now apply (mumbai_item_ok item).
Qed.

Lemma item_raise (u : university) (item : element) (e : exn) :
  item_of urljoin u item = Raise e ->
  e = ValueError /\ link_rejected urljoin u item.
Proof.
  destruct u; simpl; intros H.
  - now apply bangalore_item_raise.
  - discriminate.
  - now apply mumbai_item_raise.
Qed.

(** The records of a parsed page are what the loop body yields for the
    items, in their order. *)
Lemma notifications_records (u : university) (soup : node) (l : list announcement) :
  notifications_of urljoin u soup = Ok l ->
  Forall2 (fun item r => item_of urljoin u item = Ok r) (items_of u soup) l.
Proof.
  destruct u; simpl.
  - apply for_each_ok.
  - intros H. injection H as <-. unfold goa_notifications.
    induction (goa_items soup); simpl; constructor; auto.
  - apply for_each_ok.
Qed.

Lemma notifications_raise (u : university) (soup : node) (e : exn) :
  notifications_of urljoin u soup = Raise e ->
  e = ValueError /\
  exists item, In item (items_of u soup) /\ link_rejected urljoin u item.
Proof.
  destruct u; simpl; intros H; try discriminate.
  - destruct (for_each_raise _ _ H) as [item [Hin Hr]].
    destruct (bangalore_item_raise _ Hr) as [-> Hl]. eauto.
  - destruct (for_each_raise _ _ H) as [item [Hin Hr]].
    destruct (mumbai_item_raise _ Hr) as [-> Hl]. eauto.
Qed.

End Records.

(** Every record a scraper returns is what its loop body yields for
    some item. *)
Lemma scraper_records net html_parser urljoin (u : university) (s s' : state)
      (l : list announcement) :
  scraper_of net html_parser urljoin u s = (Ok l, s') ->
  Forall (fun r => exists item, item_of urljoin u item = Ok r) l.
Proof.
  intros H.
  destruct (scraper_outcome net html_parser urljoin u s)
    as [res [s0 [H0 [_ Hres]]]].
  rewrite H0 in H. injection H as -> ->.
  destruct Hres as [Hnil | [[Hrej _] | [soup [Hsoup _]]]].
  - injection Hnil as ->. constructor.
  - discriminate.
  - symmetry in Hsoup. apply notifications_records in Hsoup.
    apply Forall2_Forall_r in Hsoup.
    eapply Forall_impl; [| exact Hsoup].
    intros r [item [_ Hr]]. now exists item.
Qed.

(** A scraper raises only what the parser or [urljoin] raised, after
    its fetch and without logging. *)
Lemma scraper_raise net html_parser urljoin (u : university) (s s' : state) (e : exn) :
  scraper_of net html_parser urljoin u s = (Raise e, s') ->
  (e = ParserRejectedMarkup \/ e = ValueError) /\ s' = after_fetch u s.
Proof.
  intros H.
  destruct (scraper_outcome net html_parser urljoin u s)
    as [res [s0 [H0 [_ Hres]]]].
  rewrite H0 in H. injection H as -> ->.
  destruct Hres as [Hnil | [[Hrej Hs] | [soup [Hsoup Hs]]]].
  - discriminate.
  - injection Hrej as ->. split; [now left | exact Hs].
  - symmetry in Hsoup. apply notifications_raise in Hsoup.
    destruct Hsoup as [-> _]. split; [now right | exact Hs].
Qed.

(** C6 (as amended).  For every list item the Bangalore and Mumbai
    scrapers process, the title is the trimmed text of the first nested
    link element when that element carries a non-empty [href], and the
    trimmed text of the item itself otherwise (no link, or a link
    without [href]); when the trimmed text is empty the title is
    ["Untitled"]; so every record has a non-empty title.  An item
    yields no record only when [urljoin] raises on the link's
    [href]. *)
Theorem title_of_list_item :
  forall (urljoin : str -> str -> option str) (soup : node),
    bangalore_notifications urljoin soup
    = for_each (bangalore_item urljoin) (bangalore_items soup) /\
    mumbai_notifications urljoin soup
    = for_each (mumbai_item urljoin) (mumbai_items soup) /\
    forall item : element,
      let chosen :=
        match find (lit "a") (el_node item) with
        | Some a =>
            match get (lit "href") (el_node a) with
            | Some (_ :: _) => el_node a
            | _ => el_node item
            end
        | None => el_node item
        end in
      let title := if truthy (strip (text chosen))
                   then strip (text chosen) else lit "Untitled" in
      match bangalore_item urljoin item with
      | Ok r => dict_get "title" r = Some (PyStr title)
      | Raise e => e = ValueError /\ link_rejected urljoin Bangalore item
      end /\
      match mumbai_item urljoin item with
      | Ok r => dict_get "title" r = Some (PyStr title)
      | Raise e => e = ValueError /\ link_rejected urljoin Mumbai item
      end /\
      title <> [].
Proof.
  intros urljoin soup. split; [reflexivity|]. split; [reflexivity|].
  intros item chosen title. split; [| split].
  - destruct (bangalore_item urljoin item) as [r | e] eqn:E.
    + now apply (bangalore_item_ok urljoin item).
    + now apply bangalore_item_raise.
  - destruct (mumbai_item urljoin item) as [r | e] eqn:E.
    + now apply (mumbai_item_ok urljoin item).
    + now apply mumbai_item_raise.
  - apply or_else_nonempty, Untitled_nonempty.
Qed.

(** C6 (as stated) fails for a list item whose link element has no
    [href]: the link exists, but the title is the text of the whole
    item. *)
Lemma anchor_without_href_title :
  exists (link : element) (bangalore mumbai : announcement),
    find (lit "a") Sample.item_anchor_without_href = Some link /\
    strip (text (el_node link)) = lit "here" /\
    bangalore_item Sample.urljoin (Element Sample.item_anchor_without_href [])
    = Ok bangalore /\
    dict_get "title" bangalore = Some (PyStr (lit "Notice here")) /\
    mumbai_item Sample.urljoin (Element Sample.item_anchor_without_href [])
    = Ok mumbai /\
    dict_get "title" mumbai = Some (PyStr (lit "Notice here")) /\
    lit "Notice here" <> lit "here".
Proof.
  eexists _, _, _. split; [reflexivity|]. split; [reflexivity|].
  split; [reflexivity|]. split; [reflexivity|].
  split; [reflexivity|]. split; [reflexivity|]. discriminate.
Qed.

(** C7 (as amended).  For every heading found inside the
    [details1_left] block of the Goa page, the record's title is the
    heading's trimmed text, or ["Untitled"] when that is empty; its
    details are the trimmed texts of the list items below the next
    sibling element when that element is an unordered list, and the
    empty list otherwise. *)
Theorem goa_record_of_heading :
  forall soup : node,
    goa_notifications soup = List.map goa_item (goa_items soup) /\
    forall h4 : element,
      dict_get "university" (goa_item h4) = Some (PyStr (lit "Goa")) /\
      dict_get "title" (goa_item h4)
      = Some (PyStr (if truthy (strip (text (el_node h4)))
                     then strip (text (el_node h4)) else lit "Untitled")) /\
      (forall sibling,
          find_next_sibling h4 = Some sibling ->
          name (el_node sibling) = Some (lit "ul") ->
          dict_get "details" (goa_item h4)
          = Some (PyList (List.map (fun li => strip (text (el_node li)))
                            (find_all (lit "li") (el_node sibling))))) /\
      (forall sibling,
          find_next_sibling h4 = Some sibling ->
          name (el_node sibling) <> Some (lit "ul") ->
          dict_get "details" (goa_item h4) = Some (PyList [])) /\
      (find_next_sibling h4 = None ->
       dict_get "details" (goa_item h4) = Some (PyList [])).
Proof.
  intros soup. split; [reflexivity|]. intros h4.
  split; [reflexivity|]. split; [reflexivity|].
  unfold goa_item. simpl. repeat split.
  - intros sibling Hs Hn. rewrite Hs.
    destruct (el_node sibling) as [t | t | nm cl at_ cs]; try discriminate.
    simpl in *. injection Hn as ->. now rewrite str_eqb_refl.
  - intros sibling Hs Hn. rewrite Hs.
    destruct (el_node sibling) as [t | t | nm cl at_ cs]; try reflexivity.
    simpl in *. destruct (str_eqb nm (lit "ul")) eqn:E; [| reflexivity].
    apply str_eqb_eq in E. congruence.
  - intros Hs. now rewrite Hs.
Qed.

Lemma goa_record_of_heading_witness :
  dict_get "details"
    (goa_item (Element Sample.heading_fees
                 [Sample.txt " "; Sample.tag "ul" [Sample.tag "li" [Sample.txt " First "]]]))
  = Some (PyList [lit "First"]) /\
  dict_get "details"
    (goa_item (Element Sample.heading_fees [Sample.tag "p" [Sample.txt "x"]]))
  = Some (PyList []) /\
  dict_get "details" (goa_item (Element Sample.heading_fees [])) = Some (PyList []).
Proof.
  split; [| split].
  - destruct (goa_record_of_heading Sample.goa_page) as [_ H].
    destruct (H (Element Sample.heading_fees
                   [Sample.txt " "; Sample.tag "ul" [Sample.tag "li" [Sample.txt " First "]]]))
      as [_ [_ [Hul _]]].
    apply (Hul (Element (Sample.tag "ul" [Sample.tag "li" [Sample.txt " First "]]) []));
      reflexivity.
  - destruct (goa_record_of_heading Sample.goa_page) as [_ H].
    destruct (H (Element Sample.heading_fees [Sample.tag "p" [Sample.txt "x"]]))
      as [_ [_ [_ [Hother _]]]].
    apply (Hother (Element (Sample.tag "p" [Sample.txt "x"]) [])).
    + reflexivity.
    + simpl. intros E. inversion E.
  - destruct (goa_record_of_heading Sample.goa_page) as [_ H].
    destruct (H (Element Sample.heading_fees [])) as [_ [_ [_ [_ Hnone]]]].
    apply Hnone. reflexivity.
Defined.

(** C7 (as stated) fails on the title: the heading's text is [" Fees "],
    the record's title is ["Fees"]; and an empty heading is titled
    ["Untitled"]. *)
Lemma goa_title_is_trimmed :
  let heading := Element Sample.heading_fees [] in
  let empty_heading := Element (Sample.tag "h4" []) [] in
  text (el_node heading) = lit " Fees " /\
  dict_get "title" (goa_item heading) = Some (PyStr (lit "Fees")) /\
  dict_get "title" (goa_item heading) <> Some (PyStr (text (el_node heading))) /\
  text (el_node empty_heading) = [] /\
  dict_get "title" (goa_item empty_heading) = Some (PyStr (lit "Untitled")) /\
  dict_get "title" (goa_item empty_heading)
  <> Some (PyStr (text (el_node empty_heading))).
Proof.
  repeat split; discriminate.
Qed.

(** C8.  Every record a scraper returns is tagged with that scraper's
    university name and has exactly that source's fields: Bangalore
    records have university, title, description and link, and no
    details; Goa records have university, title and details, and
    neither link nor description; Mumbai records have university, title
    and link, and neither details nor description. *)
Theorem record_shape :
  forall (net : list str -> str -> get_outcome)
         (html_parser : list Byte.byte -> option node)
         (urljoin : str -> str -> option str)
         (u : university) (s s' : state) (l : list announcement),
    scraper_of net html_parser urljoin u s = (Ok l, s') ->
    Forall (fun r =>
              dict_get "university" r = Some (PyStr (university_name u)) /\
              match u with
              | Bangalore =>
                  keys r = ["university"; "title"; "description"; "link"]%string /\
                  dict_get "details" r = None
              | Goa =>
                  keys r = ["university"; "title"; "details"]%string /\
                  dict_get "link" r = None /\ dict_get "description" r = None
              | Mumbai =>
                  keys r = ["university"; "title"; "link"]%string /\
                  dict_get "details" r = None /\ dict_get "description" r = None
              end) l.
Proof.
  intros net html_parser urljoin u s s' l H.
  apply scraper_records in H.
  eapply Forall_impl; [| exact H].
  intros r [item Hr]. exact (item_ok_shape urljoin u item Hr).
Qed.

Lemma record_shape_witness :
  scraper_of Sample.net_up Sample.html_parser Sample.urljoin Bangalore initial
  = (Sample.extracted Bangalore, after_fetch Bangalore initial) /\
  List.length (Sample.records (Sample.extracted Bangalore)) = 3%nat /\
  Forall (fun r =>
            dict_get "university" r = Some (PyStr (lit "Bangalore")) /\
            keys r = ["university"; "title"; "description"; "link"]%string /\
            dict_get "details" r = None)
         (Sample.records (Sample.extracted Bangalore)).
Proof.
  split; [reflexivity|]. split; [reflexivity|].
  apply (@record_shape Sample.net_up Sample.html_parser Sample.urljoin
           Bangalore initial (after_fetch Bangalore initial)
           (Sample.records (Sample.extracted Bangalore))).
  reflexivity.
Defined.
(** ** The handlers *)

Section Handlers.

Variable net : list str -> str -> get_outcome.
Variable html_parser : list Byte.byte -> option node.
Variable urljoin : str -> str -> option str.
Variable lower : str -> str.

Lemma lookup_key_of (u : university) :
  lookup net html_parser urljoin (key_of u) = Some (scraper_of net html_parser urljoin u).
Proof. destruct u; reflexivity. Qed.

Lemma lookup_unknown (key : str) :
  key <> lit "bangalore" -> key <> lit "goa" -> key <> lit "mumbai" ->
  lookup net html_parser urljoin key = None.
Proof.
  intros Hb Hg Hm. unfold lookup, scrapers. simpl.
  assert (Eb : str_eqb (lit "bangalore") key = false)
    by (apply str_eqb_neq; congruence).
  assert (Eg : str_eqb (lit "goa") key = false)
    by (apply str_eqb_neq; congruence).
  assert (Em : str_eqb (lit "mumbai") key = false)
    by (apply str_eqb_neq; congruence).
  now rewrite Eb, Eg, Em.
Qed.

(** [GET /announcements], given what the three scrapers return. *)
Lemma get_all_announcements_run limit offset s b s1 g s2 m s3 :
  scraper_of net html_parser urljoin Bangalore s = (Ok b, s1) ->
  scraper_of net html_parser urljoin Goa s1 = (Ok g, s2) ->
  scraper_of net html_parser urljoin Mumbai s2 = (Ok m, s3) ->
  get_all_announcements net html_parser urljoin limit offset s
  = match b ++ g ++ m with
    | [] => (Raise internal_server_error,
             after_handler_error (lit "Error in get_all_announcements: ")
               (HTTPException 404 (lit "No announcements found")) s3)
    | _ :: _ =>
        (Ok (PageResponse (py_slice (b ++ g ++ m) offset (offset + limit))
               (Z.of_nat (List.length (b ++ g ++ m))) limit offset), s3)
    end.
Proof.
  intros Hb Hg Hm. simpl in Hb, Hg, Hm.
  unfold get_all_announcements, try_except, bind.
  rewrite Hb, Hg, Hm. destruct (b ++ g ++ m); reflexivity.
Qed.

(** [GET /announcements/{university}] for a known key, given what the
    scraper returns. *)
Lemma get_university_announcements_run university u limit offset s l s' :
  lower university = key_of u ->
  scraper_of net html_parser urljoin u s = (Ok l, s') ->
  get_university_announcements net html_parser urljoin lower university limit offset s
  = match l with
    | [] => (Raise internal_server_error,
             after_handler_error
               (lit "Error in get_university_announcements for " ++ university ++ lit ": ")
               (HTTPException 404 (lit "No announcements found for " ++ university)) s')
    | _ :: _ =>
        (Ok (PageResponse (py_slice l offset (offset + limit))
               (Z.of_nat (List.length l)) limit offset), s')
    end.
Proof.
  intros Hk Hl.
  unfold get_university_announcements. rewrite Hk, lookup_key_of.
  unfold try_except, bind. rewrite Hl. destruct l; reflexivity.
Qed.

Lemma get_university_announcements_unknown university limit offset s :
  lower university <> lit "bangalore" ->
  lower university <> lit "goa" ->
  lower university <> lit "mumbai" ->
  get_university_announcements net html_parser urljoin lower university limit offset s
  = (Raise (HTTPException 404
              (lit "University '" ++ university ++ lit "' not found")), s).
Proof.
  intros Hb Hg Hm.
  unfold get_university_announcements.
  now rewrite (lookup_unknown Hb Hg Hm).
Qed.

(** [GET /announcements] when a scraper raises: the handler's [except]
    logs what was raised and raises the 500; the scrapers after it do
    not run. *)
Lemma get_all_announcements_raise_1 limit offset s e s1 :
  scraper_of net html_parser urljoin Bangalore s = (Raise e, s1) ->
  get_all_announcements net html_parser urljoin limit offset s
  = (Raise internal_server_error,
     after_handler_error (lit "Error in get_all_announcements: ") e s1).
Proof.
  intros Hb. simpl in Hb. unfold get_all_announcements, try_except, bind.
  rewrite Hb. destruct e; reflexivity.
Qed.

Lemma get_all_announcements_raise_2 limit offset s b s1 e s2 :
  scraper_of net html_parser urljoin Bangalore s = (Ok b, s1) ->
  scraper_of net html_parser urljoin Goa s1 = (Raise e, s2) ->
  get_all_announcements net html_parser urljoin limit offset s
  = (Raise internal_server_error,
     after_handler_error (lit "Error in get_all_announcements: ") e s2).
Proof.
  intros Hb Hg. simpl in Hb, Hg. unfold get_all_announcements, try_except, bind.
  rewrite Hb, Hg. destruct e; reflexivity.
Qed.

Lemma get_all_announcements_raise_3 limit offset s b s1 g s2 e s3 :
  scraper_of net html_parser urljoin Bangalore s = (Ok b, s1) ->
  scraper_of net html_parser urljoin Goa s1 = (Ok g, s2) ->
  scraper_of net html_parser urljoin Mumbai s2 = (Raise e, s3) ->
  get_all_announcements net html_parser urljoin limit offset s
  = (Raise internal_server_error,
     after_handler_error (lit "Error in get_all_announcements: ") e s3).
Proof.
  intros Hb Hg Hm. simpl in Hb, Hg, Hm.
  unfold get_all_announcements, try_except, bind.
  rewrite Hb, Hg, Hm. destruct e; reflexivity.
Qed.

(** [GET /announcements/{university}] for a known key when the scraper
    raises. *)
Lemma get_university_announcements_raise university u limit offset s e s' :
  lower university = key_of u ->
  scraper_of net html_parser urljoin u s = (Raise e, s') ->
  get_university_announcements net html_parser urljoin lower university limit offset s
  = (Raise internal_server_error,
     after_handler_error
       (lit "Error in get_university_announcements for " ++ university ++ lit ": ")
       e s').
Proof.
  intros Hk Hl.
  unfold get_university_announcements. rewrite Hk, lookup_key_of.
  unfold try_except, bind. rewrite Hl. destruct e; reflexivity.
Qed.

End Handlers.

Lemma scraper_fetched net html_parser urljoin u s (r : result (list announcement)) s' :
  scraper_of net html_parser urljoin u s = (r, s') ->
  fetched s' = fetched s ++ [url_of u].
Proof.
  intros H.
  destruct (scraper_outcome net html_parser urljoin u s) as [res [s0 [H0 [Hf _]]]].
  rewrite H0 in H. now injection H as _ <-.
Qed.

(** C1: what the code does.  When the extraction or aggregation is
    empty, both handlers raise their 404 inside the [try] block, whose
    [except Exception] catches it, logs it and raises the 500
    "Internal server error" in its place. *)
Theorem empty_result_is_remapped_to_500 :
  forall (net : list str -> str -> get_outcome)
         (html_parser : list Byte.byte -> option node)
         (urljoin : str -> str -> option str) (lower : str -> str)
         (limit offset : Z) (s : state),
    (forall s1 s2 s3,
        scraper_of net html_parser urljoin Bangalore s = (Ok [], s1) ->
        scraper_of net html_parser urljoin Goa s1 = (Ok [], s2) ->
        scraper_of net html_parser urljoin Mumbai s2 = (Ok [], s3) ->
        get_all_announcements net html_parser urljoin limit offset s
        = (Raise (HTTPException 500 (lit "Internal server error")),
           after_handler_error (lit "Error in get_all_announcements: ")
             (HTTPException 404 (lit "No announcements found")) s3)) /\
    (forall university u s',
        lower university = key_of u ->
        scraper_of net html_parser urljoin u s = (Ok [], s') ->
        get_university_announcements net html_parser urljoin lower
          university limit offset s
        = (Raise (HTTPException 500 (lit "Internal server error")),
           after_handler_error
             (lit "Error in get_university_announcements for " ++ university ++ lit ": ")
             (HTTPException 404 (lit "No announcements found for " ++ university)) s')).
Proof.
  intros net html_parser urljoin lower limit offset s. split.
  - intros s1 s2 s3 Hb Hg Hm.
    now rewrite (get_all_announcements_run net html_parser urljoin limit offset s Hb Hg Hm).
  - intros university u s' Hk Hl.
    now rewrite (get_university_announcements_run net html_parser urljoin lower university u limit offset s Hk Hl).
Qed.

Lemma empty_result_is_remapped_to_500_witness :
  fst (get_all_announcements Sample.net_down Sample.html_parser Sample.urljoin
         100 0 initial)
  = Raise (HTTPException 500 (lit "Internal server error")) /\
  fst (get_university_announcements Sample.net_down Sample.html_parser
         Sample.urljoin Sample.lower (lit "Goa") 100 0 initial)
  = Raise (HTTPException 500 (lit "Internal server error")).
Proof.
  destruct (empty_result_is_remapped_to_500
              Sample.net_down Sample.html_parser Sample.urljoin Sample.lower
              100 0 initial) as [Hall Hone].
  split.
  - erewrite Hall; [ | reflexivity | reflexivity | reflexivity ].
    reflexivity.
  - erewrite (Hone (lit "Goa") Goa); [ | reflexivity | reflexivity ].
    reflexivity.
Defined.

(** C3.  The list [GET /announcements] paginates is the Bangalore
    scraper's list, then the Goa scraper's, then the Mumbai scraper's,
    each in its own order, nothing merged, sorted or dropped; the pages
    are fetched in that order too. *)
Theorem aggregation_is_concatenation :
  forall (net : list str -> str -> get_outcome)
         (html_parser : list Byte.byte -> option node)
         (urljoin : str -> str -> option str)
         (limit offset : Z) (s s1 s2 s3 : state)
         (bangalore goa mumbai : list announcement),
    scraper_of net html_parser urljoin Bangalore s = (Ok bangalore, s1) ->
    scraper_of net html_parser urljoin Goa s1 = (Ok goa, s2) ->
    scraper_of net html_parser urljoin Mumbai s2 = (Ok mumbai, s3) ->
    bangalore ++ goa ++ mumbai <> [] ->
    fetched s3 = fetched s ++ [url_of Bangalore; url_of Goa; url_of Mumbai] /\
    get_all_announcements net html_parser urljoin limit offset s
    = (Ok (PageResponse
             (py_slice (bangalore ++ goa ++ mumbai) offset (offset + limit))
             (Z.of_nat (List.length (bangalore ++ goa ++ mumbai)))
             limit offset), s3) /\
    (offset = 0 ->
     Z.of_nat (List.length (bangalore ++ goa ++ mumbai)) <= limit ->
     option_map data
       (match fst (get_all_announcements net html_parser urljoin limit offset s) with
        | Ok r => Some r
        | Raise _ => None
        end)
     = Some (bangalore ++ goa ++ mumbai)).
Proof.
  intros net html_parser urljoin limit offset s s1 s2 s3 b g m Hb Hg Hm Hne.
  assert (Hrun := get_all_announcements_run net html_parser urljoin limit offset s Hb Hg Hm).
  split; [| split].
  - rewrite (@scraper_fetched _ _ _ _ _ _ _ Hm), (@scraper_fetched _ _ _ _ _ _ _ Hg),
      (@scraper_fetched _ _ _ _ _ _ _ Hb).
    now rewrite <- !app_assoc.
  - rewrite Hrun. destruct (b ++ g ++ m); [congruence | reflexivity].
  - intros -> Hlim. rewrite Hrun.
    destruct (b ++ g ++ m) as [| x l] eqn:E; [congruence|].
    rewrite <- E. cbn [fst option_map data].
    rewrite py_slice_whole; [reflexivity | now rewrite E].
Qed.

Lemma aggregation_is_concatenation_witness :
  option_map data
    (match fst (get_all_announcements Sample.net_up Sample.html_parser
                  Sample.urljoin 100 0 initial) with
     | Ok r => Some r
     | Raise _ => None
     end)
  = Some (Sample.records (bangalore_notifications Sample.urljoin Sample.bangalore_page)
            ++ goa_notifications Sample.goa_page
            ++ Sample.records (mumbai_notifications Sample.urljoin Sample.mumbai_page)).
Proof.
  refine (proj2 (proj2 (aggregation_is_concatenation
            Sample.net_up Sample.html_parser Sample.urljoin 100 0 initial
            (s1 := after_fetch Bangalore initial)
            (s2 := after_fetch Goa (after_fetch Bangalore initial))
            (s3 := after_fetch Mumbai (after_fetch Goa (after_fetch Bangalore initial)))
            _ _ _ _)) _ _).
  - reflexivity.
  - reflexivity.
  - reflexivity.
  - vm_compute. discriminate.
  - reflexivity.
  - vm_compute. discriminate.
Defined.

(** C5.  When the list to paginate is not empty and [offset] is at
    least its length, both announcement handlers answer with empty
    [data], [total] equal to the length of the whole list, and the
    request's [limit] and [offset]. *)
Theorem offset_past_end_keeps_total :
  forall (net : list str -> str -> get_outcome)
         (html_parser : list Byte.byte -> option node)
         (urljoin : str -> str -> option str) (lower : str -> str)
         (limit offset : Z) (s : state),
    (forall s1 s2 s3 bangalore goa mumbai,
        scraper_of net html_parser urljoin Bangalore s = (Ok bangalore, s1) ->
        scraper_of net html_parser urljoin Goa s1 = (Ok goa, s2) ->
        scraper_of net html_parser urljoin Mumbai s2 = (Ok mumbai, s3) ->
        bangalore ++ goa ++ mumbai <> [] ->
        Z.of_nat (List.length (bangalore ++ goa ++ mumbai)) <= offset ->
        get_all_announcements net html_parser urljoin limit offset s
        = (Ok (PageResponse []
                 (Z.of_nat (List.length (bangalore ++ goa ++ mumbai)))
                 limit offset), s3)) /\
    (forall university u announcements s',
        lower university = key_of u ->
        scraper_of net html_parser urljoin u s = (Ok announcements, s') ->
        announcements <> [] ->
        Z.of_nat (List.length announcements) <= offset ->
        get_university_announcements net html_parser urljoin lower
          university limit offset s
        = (Ok (PageResponse [] (Z.of_nat (List.length announcements))
                 limit offset), s')).
Proof.
  intros net html_parser urljoin lower limit offset s. split.
  - intros s1 s2 s3 b g m Hb Hg Hm Hne Hoff.
    rewrite (get_all_announcements_run net html_parser urljoin limit offset s Hb Hg Hm).
    destruct (b ++ g ++ m) as [| x l] eqn:E; [congruence|].
    now rewrite py_slice_past_end.
  - intros university u l s' Hk Hl Hne Hoff.
    rewrite (get_university_announcements_run net html_parser urljoin lower university u limit offset s Hk Hl).
    destruct l as [| x l]; [congruence|].
    now rewrite py_slice_past_end.
Qed.

Lemma offset_past_end_keeps_total_witness :
  fst (get_all_announcements Sample.net_up Sample.html_parser Sample.urljoin
         10 7 initial)
  = Ok (PageResponse [] 7 10 7) /\
  fst (get_university_announcements Sample.net_up Sample.html_parser
         Sample.urljoin Sample.lower (lit "Mumbai") 5 2 initial)
  = Ok (PageResponse [] 2 5 2).
Proof.
  split.
  - destruct (offset_past_end_keeps_total
                Sample.net_up Sample.html_parser Sample.urljoin Sample.lower
                10 7 initial) as [Hall _].
    erewrite Hall;
      [ | reflexivity | reflexivity | reflexivity
        | vm_compute; discriminate | vm_compute; discriminate ].
    reflexivity.
  - destruct (offset_past_end_keeps_total
                Sample.net_up Sample.html_parser Sample.urljoin Sample.lower
                5 2 initial) as [_ Hone].
    erewrite (Hone (lit "Mumbai") Mumbai);
      [ | reflexivity | reflexivity
        | vm_compute; discriminate | vm_compute; discriminate ].
    reflexivity.
Defined.

(** C9.  The lookup in [GET /announcements/{university}] goes through
    the lower-cased path value: every value whose lower-casing is
    ["bangalore"], ["goa"] or ["mumbai"] resolves to that university's
    scraper, so two spellings of one key get the same answer from the
    same fetch; a value whose lower-casing is none of the three is
    answered "not found". *)
Theorem university_key_is_case_insensitive :
  forall (net : list str -> str -> get_outcome)
         (html_parser : list Byte.byte -> option node)
         (urljoin : str -> str -> option str) (lower : str -> str)
         (limit offset : Z) (s : state),
    (forall university u,
        lower university = key_of u ->
        lookup net html_parser urljoin (lower university)
        = Some (scraper_of net html_parser urljoin u)) /\
    (forall spelling1 spelling2 u,
        lower spelling1 = key_of u ->
        lower spelling2 = key_of u ->
        fst (get_university_announcements net html_parser urljoin lower
               spelling1 limit offset s)
        = fst (get_university_announcements net html_parser urljoin lower
                 spelling2 limit offset s) /\
        fetched (snd (get_university_announcements net html_parser urljoin lower
                        spelling1 limit offset s))
        = fetched s ++ [url_of u] /\
        fetched (snd (get_university_announcements net html_parser urljoin lower
                        spelling2 limit offset s))
        = fetched s ++ [url_of u]) /\
    (forall university,
        lower university <> lit "bangalore" ->
        lower university <> lit "goa" ->
        lower university <> lit "mumbai" ->
        lookup net html_parser urljoin (lower university) = None /\
        fst (get_university_announcements net html_parser urljoin lower
               university limit offset s)
        = Raise (HTTPException 404
                   (lit "University '" ++ university ++ lit "' not found"))).
Proof.
  intros net html_parser urljoin lower limit offset s. split; [| split].
  - intros university u ->. apply lookup_key_of.
  - intros sp1 sp2 u H1 H2.
    destruct (scraper_outcome net html_parser urljoin u s)
      as [[l | e] [s' [Hl [Hf _]]]].
    + rewrite (get_university_announcements_run net html_parser urljoin lower
                 sp1 u limit offset s H1 Hl).
      rewrite (get_university_announcements_run net html_parser urljoin lower
                 sp2 u limit offset s H2 Hl).
      destruct l; simpl; auto.
    + rewrite (get_university_announcements_raise net html_parser urljoin lower
                 sp1 u limit offset s H1 Hl).
      rewrite (get_university_announcements_raise net html_parser urljoin lower
                 sp2 u limit offset s H2 Hl).
      simpl; auto.
  - intros university Hb Hg Hm. split.
    + now apply lookup_unknown.
    + now rewrite get_university_announcements_unknown.
Qed.

Lemma university_key_is_case_insensitive_witness :
  lookup Sample.net_up Sample.html_parser Sample.urljoin (Sample.lower (lit "BANGALORE"))
  = Some (scrape_bangalore_notifications Sample.net_up Sample.html_parser Sample.urljoin) /\
  fst (get_university_announcements Sample.net_up Sample.html_parser
         Sample.urljoin Sample.lower (lit "Bangalore") 2 1 initial)
  = fst (get_university_announcements Sample.net_up Sample.html_parser
           Sample.urljoin Sample.lower (lit "BANGALORE") 2 1 initial) /\
  fst (get_university_announcements Sample.net_up Sample.html_parser
         Sample.urljoin Sample.lower (lit "Oxford") 2 1 initial)
  = Raise (HTTPException 404 (lit "University 'Oxford' not found")).
Proof.
  destruct (university_key_is_case_insensitive
              Sample.net_up Sample.html_parser Sample.urljoin Sample.lower
              2 1 initial) as [Hkey [Hsame Hnone]].
  split; [| split].
  - apply (Hkey (lit "BANGALORE") Bangalore). reflexivity.
  - apply (Hsame (lit "Bangalore") (lit "BANGALORE") Bangalore); reflexivity.
  - apply (Hnone (lit "Oxford")); vm_compute; discriminate.
Defined.

(** C10.  For a path value whose lower-casing is none of the three
    keys, [GET /announcements/{university}] raises the 404
    "University '<value>' not found" with the state untouched: no page
    has been fetched and nothing has been logged, so no scraper ran and
    the handler's [except] block, which would have turned the 404 into
    a 500, was never entered. *)
Theorem unknown_university_is_404_before_any_fetch :
  forall (net : list str -> str -> get_outcome)
         (html_parser : list Byte.byte -> option node)
         (urljoin : str -> str -> option str) (lower : str -> str)
         (university : str) (limit offset : Z) (s : state),
    lower university <> lit "bangalore" ->
    lower university <> lit "goa" ->
    lower university <> lit "mumbai" ->
    get_university_announcements net html_parser urljoin lower
      university limit offset s
    = (Raise (HTTPException 404
                (lit "University '" ++ university ++ lit "' not found")), s) /\
    fst (get_university_announcements net html_parser urljoin lower
           university limit offset s)
    <> Raise (HTTPException 500 (lit "Internal server error")).
Proof.
  intros net html_parser urljoin lower university limit offset s Hb Hg Hm.
  rewrite get_university_announcements_unknown by assumption.
  split; [reflexivity | discriminate].
Qed.

Lemma unknown_university_is_404_before_any_fetch_witness :
  get_university_announcements Sample.net_down Sample.html_parser
    Sample.urljoin Sample.lower (lit "oxford") 100 0 initial
  = (Raise (HTTPException 404 (lit "University 'oxford' not found")), initial).
Proof.
  apply (unknown_university_is_404_before_any_fetch
           Sample.net_down Sample.html_parser Sample.urljoin Sample.lower
           (lit "oxford") 100 0 initial);
    vm_compute; discriminate.
Defined.

(** * Further properties *)

(** ** Pages *)

Lemma firstn_add_skipn (A : Type) (a b : nat) (l : list A) :
  firstn (a + b) l = firstn a l ++ firstn b (skipn a l).
Proof.
  revert l. induction a as [| a IH]; intros l.
  - reflexivity.
  - destruct l as [| x l].
    + simpl. now rewrite firstn_nil.
    + simpl. now rewrite IH.
Qed.

(** X1.  Two pages taken one after the other are one page of the joint
    size: the page of [limit1] items at [offset] followed by the page of
    [limit2] items at [offset + limit1] is the page of
    [limit1 + limit2] items at [offset]. *)
Theorem adjacent_pages_join :
  forall (A : Type) (S : list A) (limit1 limit2 offset : Z),
    1 <= limit1 -> 1 <= limit2 -> 0 <= offset ->
    py_slice S offset (offset + limit1)
      ++ py_slice S (offset + limit1) (offset + limit1 + limit2)
    = py_slice S offset (offset + (limit1 + limit2)).
Proof.
  intros A S l1 l2 o H1 H2 Ho.
  change (py_slice S o (o + l1)) with (page S l1 o).
  change (py_slice S (o + l1) (o + l1 + l2)) with (page S l2 (o + l1)).
  change (py_slice S o (o + (l1 + l2))) with (page S (l1 + l2) o).
  rewrite !page_take_drop by lia.
  replace (Z.to_nat (l1 + l2)) with (Z.to_nat l1 + Z.to_nat l2)%nat by lia.
  rewrite firstn_add_skipn, skipn_skipn.
  do 3 f_equal. lia.
Qed.

Lemma adjacent_pages_join_witness :
  py_slice [10; 20; 30; 40; 50] 1 (1 + 2)
    ++ py_slice [10; 20; 30; 40; 50] (1 + 2) (1 + 2 + 3)
  = py_slice [10; 20; 30; 40; 50] 1 (1 + (2 + 3)).
Proof.
  apply (@adjacent_pages_join Z [10; 20; 30; 40; 50] 2 3 1); lia.
Defined.

(** X2.  Item [k] of the page is item [offset + k] of the whole list
    for [k < limit], and the page has no item from [limit] on: the
    page is a window on the list, nothing reordered, repeated or
    skipped. *)
Theorem page_item :
  forall (A : Type) (S : list A) (limit offset : Z) (k : nat),
    1 <= limit -> 0 <= offset ->
    nth_error (py_slice S offset (offset + limit)) k
    = if Z.of_nat k <? limit
      then nth_error S (Z.to_nat offset + k)
      else None.
Proof.
  intros A S limit offset k Hl Ho.
  change (py_slice S offset (offset + limit)) with (page S limit offset).
  rewrite page_take_drop by assumption.
  rewrite nth_error_firstn, nth_error_skipn.
  destruct (Nat.ltb_spec k (Z.to_nat limit));
    destruct (Z.ltb_spec (Z.of_nat k) limit); try reflexivity; lia.
Qed.

Lemma page_item_witness :
  nth_error (py_slice [10; 20; 30; 40; 50] 1 (1 + 2)) 1 = Some 30 /\
  nth_error (py_slice [10; 20; 30; 40; 50] 1 (1 + 2)) 2 = None.
Proof.
  split.
  - rewrite (@page_item Z [10; 20; 30; 40; 50] 2 1 1) by lia. reflexivity.
  - rewrite (@page_item Z [10; 20; 30; 40; 50] 2 1 2) by lia. reflexivity.
Defined.

(** ** Trimming *)

Lemma lstrip_head (s : str) (c : N) (rest : str) :
  lstrip s = c :: rest -> isspace c = false.
Proof.
  induction s as [| x s IH]; simpl; [discriminate|].
  destruct (isspace x) eqn:E; [exact IH|].
  intros H. injection H as <- _. exact E.
Qed.

Lemma lstrip_split (s : str) : exists ws, s = ws ++ lstrip s /\ blank ws.
Proof.
  induction s as [| x s [ws [Hs Hws]]]; simpl.
  - exists []. split; [reflexivity | constructor].
  - destruct (isspace x) eqn:E.
    + exists (x :: ws). split; [simpl; now f_equal | now constructor].
    + exists []. split; [reflexivity | constructor].
Qed.

Lemma lstrip_blank (s : str) : blank s -> lstrip s = [].
Proof.
  induction 1 as [| x s Hx _ IH]; simpl; [reflexivity|]. now rewrite Hx.
Qed.

Lemma rstrip_split (s : str) : exists ws, s = rstrip s ++ ws /\ blank ws.
Proof.
  unfold rstrip. destruct (lstrip_split (rev s)) as [ws [Hs Hws]].
  exists (rev ws). split.
  - rewrite <- rev_app_distr, <- Hs. now rewrite rev_involutive.
  - now apply Forall_rev.
Qed.

Lemma rstrip_last (s : str) (c : N) (init : str) :
  rstrip s = init ++ [c] -> isspace c = false.
Proof.
  unfold rstrip. intros H.
  apply (f_equal (@rev N)) in H.
  rewrite rev_involutive, rev_app_distr in H. simpl in H.
  eapply lstrip_head; exact H.
Qed.

(** [s.strip()] is what is left of [s] between its leading and its
    trailing whitespace. *)
Lemma strip_split (s : str) :
  exists before after, s = before ++ strip s ++ after /\ blank before /\ blank after.
Proof.
  destruct (lstrip_split s) as [before [Hs Hb]].
  destruct (rstrip_split (lstrip s)) as [after [Ht Ha]].
  exists before, after. unfold strip. now rewrite <- Ht.
Qed.

Lemma strip_trimmed (s : str) : trimmed (strip s).
Proof.
  split.
  - intros c rest H.
    destruct (rstrip_split (lstrip s)) as [ws [Ht _]].
    unfold strip in H. rewrite H in Ht. simpl in Ht.
    eapply lstrip_head; exact Ht.
  - intros c init H. eapply rstrip_last; exact H.
Qed.

Lemma strip_blank (s : str) : blank s -> strip s = [].
Proof.
  intros H. unfold strip, rstrip. now rewrite (@lstrip_blank s H).
Qed.

Lemma strip_empty_blank (s : str) : strip s = [] -> blank s.
Proof.
  intros H. destruct (strip_split s) as [before [after [Hs [Hb Ha]]]].
  rewrite H in Hs. rewrite Hs. apply Forall_app. now split.
Qed.

Lemma Untitled_trimmed : trimmed Untitled.
Proof.
  split.
  - intros c rest H. injection H as <- _. reflexivity.
  - intros c init H.
    change Untitled with (List.map N_of_ascii (list_ascii_of_string "Untitle") ++ [100%N]) in H.
    apply app_inj_tail in H. destruct H as [_ <-]. reflexivity.
Qed.

Lemma or_else_strip_trimmed (s : str) :
  or_else (strip s) Untitled <> [] /\ trimmed (or_else (strip s) Untitled).
Proof.
  split; [apply or_else_nonempty, Untitled_nonempty|].
  unfold or_else. destruct (truthy (strip s));
    [apply strip_trimmed | apply Untitled_trimmed].
Qed.

(** ** Titles *)

Lemma title_of_item (urljoin : str -> str -> option str) (u : university)
      (item : element) (r : announcement) :
  item_of urljoin u item = Ok r ->
  title_of r = Some (or_else (strip (text (title_source u item))) Untitled).
Proof.
  intros H. unfold title_of. now rewrite (item_ok_title urljoin u item H).
Qed.

(** X3.  In every list a scraper returns (Goa included), every
    record has a title that is a non-empty string with no whitespace at
    either end. *)
Theorem every_title_is_trimmed_and_nonempty :
  forall (net : list str -> str -> get_outcome)
         (html_parser : list Byte.byte -> option node)
         (urljoin : str -> str -> option str)
         (u : university) (s s' : state) (l : list announcement),
    scraper_of net html_parser urljoin u s = (Ok l, s') ->
    Forall (fun r => exists t, dict_get "title" r = Some (PyStr t) /\
                               t <> [] /\ trimmed t) l.
Proof.
  intros net html_parser urljoin u s s' l H.
  apply scraper_records in H.
  eapply Forall_impl; [| exact H].
  intros r [item Hr].
  exists (or_else (strip (text (title_source u item))) Untitled).
  split; [exact (item_ok_title urljoin u item Hr) | apply or_else_strip_trimmed].
Qed.

Lemma every_title_is_trimmed_and_nonempty_witness :
  List.length (Sample.records (Sample.extracted Goa)) = 2%nat /\
  Forall (fun r => exists t, dict_get "title" r = Some (PyStr t) /\
                             t <> [] /\ trimmed t)
         (Sample.records (Sample.extracted Goa)).
Proof.
  split; [reflexivity|].
  apply (@every_title_is_trimmed_and_nonempty
           Sample.net_up Sample.html_parser Sample.urljoin
           Goa initial (after_fetch Goa initial)
           (Sample.records (Sample.extracted Goa))).
  reflexivity.
Defined.

(** X4.  How a title comes out of the text it is taken from (the
    link or the item for Bangalore and Mumbai, the heading for Goa), in
    the record an item yields: when the text is empty or all whitespace
    the title is ["Untitled"]; otherwise the title is the text without
    its leading and trailing whitespace, the inside of the text
    unchanged.  An item yields no record only when [urljoin] raises on
    its link. *)
Theorem title_from_text :
  forall (urljoin : str -> str -> option str) (u : university) (item : element),
    let source := text (title_source u item) in
    match item_of urljoin u item with
    | Ok r =>
        (blank source -> title_of r = Some (lit "Untitled")) /\
        (~ blank source ->
         exists before title after,
           title_of r = Some title /\
           source = before ++ title ++ after /\
           blank before /\ blank after /\ title <> [] /\ trimmed title)
    | Raise e => e = ValueError /\ link_rejected urljoin u item
    end.
Proof.
  intros urljoin u item source.
  destruct (item_of urljoin u item) as [r | e] eqn:E;
    [| exact (item_raise urljoin u item E)].
  rewrite (title_of_item urljoin u item E). fold source. split.
  - intros Hb. now rewrite (@strip_blank source Hb).
  - intros Hnb.
    destruct (strip_split source) as [before [after [Hs [Hb Ha]]]].
    exists before, (strip source), after.
    assert (Hne : strip source <> [])
      by (intros E'; apply Hnb; now apply strip_empty_blank).
    unfold or_else. destruct (strip source) as [| c t] eqn:E'; [congruence|].
    simpl. repeat split; try assumption.
    + intros c0 rest H. rewrite <- E' in H. eapply (proj1 (strip_trimmed source)); exact H.
    + intros c0 init H. rewrite <- E' in H. eapply (proj2 (strip_trimmed source)); exact H.
Qed.

Lemma title_from_text_witness :
  title_of (Sample.record
              (item_of Sample.urljoin Bangalore
                 (Element (Sample.tag "li" [Sample.txt "   "]) [])))
  = Some (lit "Untitled") /\
  exists before title after,
    title_of (Sample.record
                (item_of Sample.urljoin Goa (Element Sample.heading_fees [])))
    = Some title /\
    text Sample.heading_fees = before ++ title ++ after /\
    blank before /\ blank after /\ title <> [] /\ trimmed title.
Proof.
  split.
  - pose proof (title_from_text Sample.urljoin Bangalore
                  (Element (Sample.tag "li" [Sample.txt "   "]) [])) as H.
    cbv zeta in H.
    destruct (item_of Sample.urljoin Bangalore
                (Element (Sample.tag "li" [Sample.txt "   "]) [])) as [r | e] eqn:E;
      [| vm_compute in E; discriminate E].
    apply (proj1 H). repeat constructor.
  - pose proof (title_from_text Sample.urljoin Goa
                  (Element Sample.heading_fees [])) as H.
    cbv zeta in H.
    destruct (item_of Sample.urljoin Goa (Element Sample.heading_fees []))
      as [r | e] eqn:E; [| vm_compute in E; discriminate E].
    apply (proj2 H).
    intros Hb. inversion Hb as [| c l Hc Hl]; subst.
    inversion Hl as [| c' l' Hc' Hl']; subst. discriminate Hc'.
Defined.

(** X5.  In every list the Goa scraper returns, every record has a
    [details] list (never [None]), and every string in it has no
    whitespace at either end. *)
Theorem goa_details_are_trimmed :
  forall (net : list str -> str -> get_outcome)
         (html_parser : list Byte.byte -> option node)
         (urljoin : str -> str -> option str)
         (s s' : state) (l : list announcement),
    scraper_of net html_parser urljoin Goa s = (Ok l, s') ->
    Forall (fun r => exists details,
                dict_get "details" r = Some (PyList details) /\
                Forall trimmed details) l.
Proof.
  intros net html_parser urljoin s s' l H.
  apply scraper_records in H.
  eapply Forall_impl; [| exact H].
  intros r [h4 Hr]. simpl in Hr. injection Hr as <-.
  unfold goa_item. simpl.
  eexists. split; [reflexivity|].
  destruct (find_next_sibling h4) as [e |]; [| constructor].
  destruct (named (lit "ul") (el_node e)); [| constructor].
  apply Forall_map, Forall_forall. intros li _. apply strip_trimmed.
Qed.

Lemma goa_details_are_trimmed_witness :
  List.length (Sample.records (Sample.extracted Goa)) = 2%nat /\
  Forall (fun r => exists details,
              dict_get "details" r = Some (PyList details) /\
              Forall trimmed details)
         (Sample.records (Sample.extracted Goa)).
Proof.
  split; [reflexivity|].
  apply (@goa_details_are_trimmed
           Sample.net_up Sample.html_parser Sample.urljoin
           initial (after_fetch Goa initial)
           (Sample.records (Sample.extracted Goa))).
  reflexivity.
Defined.
(** ** Items, siblings and links *)

Lemma find_next_sibling_skips_strings (h : node) (ws : list node) (t : node) (rest : list node) :
  Forall (fun n => is_tag n = false) ws ->
  is_tag t = true ->
  find_next_sibling (Element h (ws ++ t :: rest)) = Some (Element t rest).
Proof.
  intros Hws Ht. unfold find_next_sibling. simpl.
  induction Hws as [| w ws Hw _ IH]; simpl.
  - now rewrite Ht.
  - now rewrite Hw.
Qed.

(** X6.  The details of a Goa heading are decided by the first tag
    that follows it under the same parent: text and comment nodes in
    between are skipped, and what comes after that tag is never looked
    at.  If that tag is a [ul] the details are the trimmed texts of the
    [li] tags below it; if it is any other tag the details are empty,
    even when a [ul] follows later. *)
Theorem goa_details_come_from_first_tag_sibling :
  forall (h : node) (ws : list node) (nm : str) (cl : list str)
         (attrs : list (str * str)) (cs rest : list node),
    Forall (fun n => is_tag n = false) ws ->
    dict_get "details" (goa_item (Element h (ws ++ Tag nm cl attrs cs :: rest)))
    = Some (PyList
              (if str_eqb nm (lit "ul")
               then List.map (fun li => strip (text (el_node li)))
                      (find_all (lit "li") (Tag nm cl attrs cs))
               else [])).
Proof.
  intros h ws nm cl attrs cs rest Hws. unfold goa_item.
  rewrite (@find_next_sibling_skips_strings h ws (Tag nm cl attrs cs) rest Hws eq_refl).
  reflexivity.
Qed.

Lemma goa_details_come_from_first_tag_sibling_witness :
  dict_get "details"
    (goa_item (Element Sample.heading_fees
                 ([Sample.txt " "; Comment (lit "note")]
                    ++ Tag (lit "p") [] [] [Sample.txt "soon"]
                    :: [Sample.tag "ul" [Sample.tag "li" [Sample.txt "late"]]])))
  = Some (PyList []).
Proof.
  apply (@goa_details_come_from_first_tag_sibling
           Sample.heading_fees [Sample.txt " "; Comment (lit "note")]
           (lit "p") [] [] [Sample.txt "soon"]
           [Sample.tag "ul" [Sample.tag "li" [Sample.txt "late"]]]).
  repeat constructor.
Defined.

(** X7.  In every list the Bangalore and Mumbai scrapers return, the
    [link] of a record is either [None] or what [urljoin] returned for
    the scraper's own URL and a non-empty [href]: a link is never built
    from an empty [href] and never resolved against another base.  The
    [description] of a Bangalore record is always [None]. *)
Theorem links_are_resolved_against_the_fetch_url :
  forall (net : list str -> str -> get_outcome)
         (html_parser : list Byte.byte -> option node)
         (urljoin : str -> str -> option str)
         (s s' : state) (l : list announcement),
    (scrape_bangalore_notifications net html_parser urljoin s = (Ok l, s') ->
     Forall (fun r =>
               dict_get "description" r = Some PyNone /\
               (dict_get "link" r = Some PyNone \/
                exists href link,
                  href <> [] /\
                  urljoin (url_of Bangalore) href = Some link /\
                  dict_get "link" r = Some (PyStr link))) l) /\
    (scrape_mumbai_notifications net html_parser urljoin s = (Ok l, s') ->
     Forall (fun r =>
               dict_get "link" r = Some PyNone \/
               exists href link,
                 href <> [] /\
                 urljoin (url_of Mumbai) href = Some link /\
                 dict_get "link" r = Some (PyStr link)) l).
Proof.
  intros net html_parser urljoin s s' l. split; intros H.
  - apply (@scraper_records net html_parser urljoin Bangalore s s' l) in H.
    eapply Forall_impl; [| exact H].
    intros r [item Hr]. simpl in Hr.
    destruct (bangalore_item_ok urljoin item Hr) as [_ [_ [Hd Hl]]].
    split; assumption.
  - apply (@scraper_records net html_parser urljoin Mumbai s s' l) in H.
    eapply Forall_impl; [| exact H].
    intros r [item Hr]. simpl in Hr.
    destruct (mumbai_item_ok urljoin item Hr) as [_ [_ Hl]]. exact Hl.
Qed.

Lemma links_are_resolved_against_the_fetch_url_witness :
  List.length (Sample.records (Sample.extracted Bangalore)) = 3%nat /\
  Forall (fun r =>
            dict_get "description" r = Some PyNone /\
            (dict_get "link" r = Some PyNone \/
             exists href link,
               href <> [] /\
               Sample.urljoin (url_of Bangalore) href = Some link /\
               dict_get "link" r = Some (PyStr link)))
         (Sample.records (Sample.extracted Bangalore)).
Proof.
  split; [reflexivity|].
  apply (proj1 (@links_are_resolved_against_the_fetch_url
                  Sample.net_up Sample.html_parser Sample.urljoin
                  initial (after_fetch Bangalore initial)
                  (Sample.records (Sample.extracted Bangalore)))).
  reflexivity.
Defined.

Lemma below_ends_with_li (pending : list selector) (n : node) :
  ends_with_li pending -> ends_with_li (below pending n).
Proof.
  intros [init H]. unfold below.
  destruct pending as [| sel [| sel' rest]]; try (now exists init).
  destruct (matches sel n); [| now exists init].
  destruct init as [| i init]; [discriminate|].
  injection H as _ H. now exists init.
Qed.

Lemma selected_ends_with_li (pending : list selector) (n : node) :
  ends_with_li pending -> selected pending n = true -> named (lit "li") n = true.
Proof.
  intros [init H] Hsel. unfold selected in Hsel.
  destruct pending as [| sel [| sel' rest]]; try discriminate.
  destruct init as [| i [| i' init]]; try discriminate.
  injection H as ->. exact Hsel.
Qed.

Lemma select_from_li (n : node) :
  forall pending,
    ends_with_li pending ->
    Forall (fun e => named (lit "li") (el_node e) = true) (select_from pending n).
Proof.
  induction n as [s | s | nm cl attrs cs IH] using node_tree_ind;
    intros pending Hp; simpl; try constructor.
  induction IH as [| c rest Hc _ IHrest]; [constructor|].
  apply Forall_app. split; [| apply Forall_app; split].
  - destruct (selected pending c) eqn:E; [| constructor].
    constructor; [| constructor]. simpl.
    eapply selected_ends_with_li; eassumption.
  - apply Hc. now apply below_ends_with_li.
  - exact IHrest.
Qed.

(** X8.  Every item a scraper's loop runs over is a tag of the kind the
    scraper looks for: [li] for Bangalore and Mumbai, [h4] for Goa; no
    text node and no other tag ever becomes a record. *)
Theorem items_are_the_expected_tags :
  forall (u : university) (soup : node),
    Forall (fun e => name (el_node e) = Some (item_tag u)) (items_of u soup).
Proof.
  assert (Hnamed : forall nm n, named nm n = true -> name n = Some nm).
  { intros nm [s | s | nm' cl attrs cs]; simpl; try discriminate.
    intros H. apply str_eqb_eq in H. now subst. }
  intros u soup. apply Forall_forall. intros e He. apply Hnamed.
  destruct u; simpl in *.
  - unfold bangalore_items in He.
    destruct (find_class (lit "div") (lit "container") soup) as [c |]; [| destruct He].
    destruct (find (lit "ul") (el_node c)) as [ul |]; [| destruct He].
    unfold find_all_children in He. now apply filter_In in He.
  - unfold goa_items in He.
    destruct (find_class (lit "div") (lit "details1") soup) as [w |]; [| destruct He].
    destruct (find_class (lit "div") (lit "details1_left") (el_node w)) as [d |];
      [| destruct He].
    unfold find_all in He. now apply filter_In in He.
  - unfold mumbai_items, select in He.
    assert (Hli : ends_with_li mumbai_path).
    { exists [ById (lit "main"); ByClass (lit "entry-content");
              ByClass (lit "wpb_text_column"); ByType (lit "ul")]. reflexivity. }
    pose proof (select_from_li soup Hli) as Hall.
    rewrite Forall_forall in Hall. now apply Hall.
Qed.

(** ** Requests *)

(** X9.  [GET /announcements] fetches Bangalore's page, then Goa's,
    then Mumbai's, once each.  A scraper that returns, with records or
    with the empty list of a failed fetch, is followed by the next
    fetch; only a scraper that raises ends the fetching, and the page
    of that scraper is then the last one fetched. *)
Theorem all_announcements_fetch_order :
  forall (net : list str -> str -> get_outcome)
         (html_parser : list Byte.byte -> option node)
         (urljoin : str -> str -> option str)
         (limit offset : Z) (s : state),
    let after :=
      fetched (snd (get_all_announcements net html_parser urljoin limit offset s)) in
    match scraper_of net html_parser urljoin Bangalore s with
    | (Raise _, _) => after = fetched s ++ [url_of Bangalore]
    | (Ok _, s1) =>
        match scraper_of net html_parser urljoin Goa s1 with
        | (Raise _, _) => after = fetched s ++ [url_of Bangalore; url_of Goa]
        | (Ok _, s2) =>
            after = fetched s ++ [url_of Bangalore; url_of Goa; url_of Mumbai]
        end
    end.
Proof.
  intros net html_parser urljoin limit offset s after. subst after.
  destruct (scraper_of net html_parser urljoin Bangalore s) as [[b | e] s1] eqn:Hb.
  - pose proof (@scraper_fetched _ _ _ _ _ _ _ Hb) as Fb.
    destruct (scraper_of net html_parser urljoin Goa s1) as [[g | e] s2] eqn:Hg.
    + pose proof (@scraper_fetched _ _ _ _ _ _ _ Hg) as Fg.
      destruct (scraper_of net html_parser urljoin Mumbai s2) as [[m | e] s3] eqn:Hm.
      * pose proof (@scraper_fetched _ _ _ _ _ _ _ Hm) as Fm.
        rewrite (get_all_announcements_run net html_parser urljoin limit offset s Hb Hg Hm).
        destruct (b ++ g ++ m); simpl; rewrite Fm, Fg, Fb;
          now rewrite <- !app_assoc.
      * pose proof (@scraper_fetched _ _ _ _ _ _ _ Hm) as Fm.
        rewrite (get_all_announcements_raise_3 net html_parser urljoin
                   limit offset s Hb Hg Hm).
        simpl. rewrite Fm, Fg, Fb. now rewrite <- !app_assoc.
    + pose proof (@scraper_fetched _ _ _ _ _ _ _ Hg) as Fg.
      rewrite (get_all_announcements_raise_2 net html_parser urljoin
                 limit offset s Hb Hg).
      simpl. rewrite Fg, Fb. now rewrite <- !app_assoc.
  - pose proof (@scraper_fetched _ _ _ _ _ _ _ Hb) as Fb.
    rewrite (get_all_announcements_raise_1 net html_parser urljoin
               limit offset s Hb).
    simpl. exact Fb.
Qed.

(** The invariants of a page response for a request with [limit] and
    [offset]. *)
Lemma page_response_invariants (l : list announcement) (limit offset : Z) :
  1 <= limit -> 0 <= offset -> l <> [] ->
  let r := PageResponse (py_slice l offset (offset + limit))
             (Z.of_nat (List.length l)) limit offset in
  1 <= total r /\
  Z.of_nat (List.length (data r)) = Z.min limit (Z.max 0 (total r - offset)) /\
  resp_limit r = limit /\ resp_offset r = offset.
Proof.
  intros Hl Ho Hne. simpl. split; [| split; [| split]]; try reflexivity.
  - destruct l; [congruence | simpl; lia].
  - apply (@page_length announcement l limit offset Hl Ho).
Qed.

(** X10.  A validated request ([limit >= 1], [offset >= 0]) to
    [GET /announcements] either succeeds, and then [total] is at least
    1, [data] has [min(limit, max(0, total - offset))] records and
    [limit] and [offset] are the request's; or it raises the 500
    "Internal server error", and then the last line it logged names the
    cause: its own 404 "No announcements found", or the
    [ParserRejectedMarkup] or [ValueError] a scraper raised.  It never
    answers 404 and never answers with [total = 0]. *)
Theorem all_announcements_outcomes :
  forall (net : list str -> str -> get_outcome)
         (html_parser : list Byte.byte -> option node)
         (urljoin : str -> str -> option str)
         (limit offset : Z) (s : state),
    1 <= limit -> 0 <= offset ->
    match get_all_announcements net html_parser urljoin limit offset s with
    | (Ok r, _) =>
        1 <= total r /\
        Z.of_nat (List.length (data r)) = Z.min limit (Z.max 0 (total r - offset)) /\
        resp_limit r = limit /\ resp_offset r = offset
    | (Raise e, s') =>
        e = HTTPException 500 (lit "Internal server error") /\
        exists earlier cause,
          logged s' = earlier ++ [(lit "Error in get_all_announcements: ", cause)] /\
          (cause = HTTPException 404 (lit "No announcements found") \/
           cause = ParserRejectedMarkup \/ cause = ValueError)
    end.
Proof.
  intros net html_parser urljoin limit offset s Hl Ho.
  destruct (scraper_of net html_parser urljoin Bangalore s) as [[b | e] s1] eqn:Hb.
  - destruct (scraper_of net html_parser urljoin Goa s1) as [[g | e] s2] eqn:Hg.
    + destruct (scraper_of net html_parser urljoin Mumbai s2) as [[m | e] s3] eqn:Hm.
      * rewrite (get_all_announcements_run net html_parser urljoin limit offset s Hb Hg Hm).
        destruct (b ++ g ++ m) as [| x l] eqn:E.
        -- split; [reflexivity|]. exists (logged s3), (HTTPException 404 (lit "No announcements found")).
           split; [reflexivity | now left].
        -- apply (@page_response_invariants (x :: l) limit offset Hl Ho). discriminate.
      * rewrite (get_all_announcements_raise_3 net html_parser urljoin
                   limit offset s Hb Hg Hm).
        split; [reflexivity|]. exists (logged s3), e. split; [reflexivity|].
        right. exact (proj1 (scraper_raise _ _ _ _ _ Hm)).
    + rewrite (get_all_announcements_raise_2 net html_parser urljoin
                 limit offset s Hb Hg).
      split; [reflexivity|]. exists (logged s2), e. split; [reflexivity|].
      right. exact (proj1 (scraper_raise _ _ _ _ _ Hg)).
  - rewrite (get_all_announcements_raise_1 net html_parser urljoin
               limit offset s Hb).
    split; [reflexivity|]. exists (logged s1), e. split; [reflexivity|].
    right. exact (proj1 (scraper_raise _ _ _ _ _ Hb)).
Qed.

Lemma all_announcements_outcomes_witness :
  match get_all_announcements Sample.net_up Sample.html_parser Sample.urljoin
          3 5 initial with
  | (Ok r, _) =>
      1 <= total r /\
      Z.of_nat (List.length (data r)) = Z.min 3 (Z.max 0 (total r - 5)) /\
      resp_limit r = 3 /\ resp_offset r = 5
  | (Raise e, s') =>
      e = HTTPException 500 (lit "Internal server error") /\
      exists earlier cause,
        logged s' = earlier ++ [(lit "Error in get_all_announcements: ", cause)] /\
        (cause = HTTPException 404 (lit "No announcements found") \/
         cause = ParserRejectedMarkup \/ cause = ValueError)
  end.
Proof.
  apply (@all_announcements_outcomes
           Sample.net_up Sample.html_parser Sample.urljoin 3 5 initial); lia.
Defined.

(** X11.  A validated request to [GET /announcements/{university}]
    whose path value lower-cases to a known key fetches that
    university's page and no other, and either succeeds with
    [total >= 1], [min(limit, max(0, total - offset))] records and the
    request's [limit] and [offset], or raises the 500
    "Internal server error", the last line logged naming the cause: its
    own 404 "No announcements found for <value>", or the
    [ParserRejectedMarkup] or [ValueError] the scraper raised.  A known
    key is never answered 404. *)
Theorem university_announcements_outcomes :
  forall (net : list str -> str -> get_outcome)
         (html_parser : list Byte.byte -> option node)
         (urljoin : str -> str -> option str) (lower : str -> str)
         (path_value : str) (u : university) (limit offset : Z) (s : state),
    lower path_value = key_of u ->
    1 <= limit -> 0 <= offset ->
    match get_university_announcements net html_parser urljoin lower
            path_value limit offset s with
    | (Ok r, s') =>
        1 <= total r /\
        Z.of_nat (List.length (data r)) = Z.min limit (Z.max 0 (total r - offset)) /\
        resp_limit r = limit /\ resp_offset r = offset /\
        fetched s' = fetched s ++ [url_of u]
    | (Raise e, s') =>
        e = HTTPException 500 (lit "Internal server error") /\
        fetched s' = fetched s ++ [url_of u] /\
        exists earlier cause,
          logged s'
          = earlier ++ [(lit "Error in get_university_announcements for "
                           ++ path_value ++ lit ": ", cause)] /\
          (cause = HTTPException 404
                     (lit "No announcements found for " ++ path_value) \/
           cause = ParserRejectedMarkup \/ cause = ValueError)
    end.
Proof.
  intros net html_parser urljoin lower path_value u limit offset s Hk Hl Ho.
  destruct (scraper_of net html_parser urljoin u s) as [[l | e] s'] eqn:Hrun.
  - pose proof (@scraper_fetched _ _ _ _ _ _ _ Hrun) as Hf.
    rewrite (get_university_announcements_run net html_parser urljoin lower
               path_value u limit offset s Hk Hrun).
    destruct l as [| x l].
    + split; [reflexivity|]. split; [exact Hf|].
      exists (logged s'),
        (HTTPException 404 (lit "No announcements found for " ++ path_value)).
      split; [reflexivity | now left].
    + destruct (@page_response_invariants (x :: l) limit offset Hl Ho)
        as [H1 [H2 [H3 H4]]]; [discriminate|].
      repeat split; assumption.
  - pose proof (@scraper_fetched _ _ _ _ _ _ _ Hrun) as Hf.
    rewrite (get_university_announcements_raise net html_parser urljoin lower
               path_value u limit offset s Hk Hrun).
    split; [reflexivity|]. split; [exact Hf|].
    exists (logged s'), e. split; [reflexivity|].
    right. exact (proj1 (scraper_raise _ _ _ _ _ Hrun)).
Qed.

Lemma university_announcements_outcomes_witness :
  match get_university_announcements Sample.net_up Sample.html_parser
          Sample.urljoin Sample.lower (lit "GOA") 1 1 initial with
  | (Ok r, s') =>
      1 <= total r /\
      Z.of_nat (List.length (data r)) = Z.min 1 (Z.max 0 (total r - 1)) /\
      resp_limit r = 1 /\ resp_offset r = 1 /\
      fetched s' = fetched initial ++ [url_of Goa]
  | (Raise e, s') =>
      e = HTTPException 500 (lit "Internal server error") /\
      fetched s' = fetched initial ++ [url_of Goa] /\
      exists earlier cause,
        logged s'
        = earlier ++ [(lit "Error in get_university_announcements for "
                         ++ lit "GOA" ++ lit ": ", cause)] /\
        (cause = HTTPException 404
                   (lit "No announcements found for " ++ lit "GOA") \/
         cause = ParserRejectedMarkup \/ cause = ValueError)
  end.
Proof.
  apply (@university_announcements_outcomes
           Sample.net_up Sample.html_parser Sample.urljoin Sample.lower
           (lit "GOA") Goa 1 1 initial); [reflexivity | lia | lia].
Defined.

(** X12.  Sources that fail are left out and do not fail the request:
    when Bangalore's fetch raises and Goa's response carries a 4xx or
    5xx status while the Mumbai scraper returns records,
    [GET /announcements] answers with Mumbai's records alone and their
    count as [total]; the two failures show only in the log. *)
Theorem failed_sources_are_left_out :
  forall (net : list str -> str -> get_outcome)
         (html_parser : list Byte.byte -> option node)
         (urljoin : str -> str -> option str)
         (limit offset : Z) (s s3 : state)
         (e : request_error) (r : response) (mumbai : list announcement),
    net (fetched s) (url_of Bangalore) = GetRaises e ->
    net (fetched s ++ [url_of Bangalore]) (url_of Goa) = GetReturns r ->
    error_status (status_code r) ->
    scraper_of net html_parser urljoin Mumbai
      (after_failed_fetch Goa (HTTPError (status_code r))
         (after_failed_fetch Bangalore e s))
    = (Ok mumbai, s3) ->
    mumbai <> [] ->
    get_all_announcements net html_parser urljoin limit offset s
    = (Ok (PageResponse (py_slice mumbai offset (offset + limit))
             (Z.of_nat (List.length mumbai)) limit offset), s3).
Proof.
  intros net html_parser urljoin limit offset s s3 e r m Hb Hg Hst Hm Hne.
  pose proof (@scraper_raises net html_parser urljoin Bangalore s e Hb) as Rb.
  assert (Rg : scraper_of net html_parser urljoin Goa (after_failed_fetch Bangalore e s)
               = (Ok [], after_failed_fetch Goa (HTTPError (status_code r))
                          (after_failed_fetch Bangalore e s)))
    by (apply scraper_error_status; assumption).
  rewrite (get_all_announcements_run net html_parser urljoin limit offset s Rb Rg Hm).
  simpl. destruct m; [congruence | reflexivity].
Qed.

Lemma failed_sources_are_left_out_witness :
  get_all_announcements net_only_mumbai Sample.html_parser Sample.urljoin 1 1 initial
  = (Ok (PageResponse
           (py_slice (Sample.records (Sample.extracted Mumbai)) 1 (1 + 1))
           2 1 1),
     after_fetch Mumbai
       (after_failed_fetch Goa (HTTPError 503)
          (after_failed_fetch Bangalore Timeout initial))).
Proof.
  apply (@failed_sources_are_left_out
           net_only_mumbai Sample.html_parser Sample.urljoin 1 1 initial
           (after_fetch Mumbai
              (after_failed_fetch Goa (HTTPError 503)
                 (after_failed_fetch Bangalore Timeout initial)))
           Timeout (Response 503 [])
           (Sample.records (Sample.extracted Mumbai))).
  - reflexivity.
  - reflexivity.
  - unfold error_status. simpl. lia.
  - reflexivity.
  - vm_compute. discriminate.
Defined.

(** ** The endpoints together *)

(** X13.  The names [GET /universities] lists and the keys of the
    [scrapers] dictionary agree: lower-casing the listed names gives
    the keys, in the same order, so every listed name is accepted by
    [GET /announcements/{university}]; and every record in a list the
    scraper of a listed name returns is tagged with that very name. *)
Theorem listed_universities_are_served :
  forall (net : list str -> str -> get_outcome)
         (html_parser : list Byte.byte -> option node)
         (urljoin : str -> str -> option str) (lower : str -> str),
    lower (lit "Bangalore") = lit "bangalore" ->
    lower (lit "Goa") = lit "goa" ->
    lower (lit "Mumbai") = lit "mumbai" ->
    List.map lower supported_universities
    = List.map fst (scrapers net html_parser urljoin) /\
    forall listed,
      In listed supported_universities ->
      exists scraper,
        lookup net html_parser urljoin (lower listed) = Some scraper /\
        forall s l s',
          scraper s = (Ok l, s') ->
          Forall (fun r => dict_get "university" r = Some (PyStr listed)) l.
Proof.
  intros net html_parser urljoin lower Hb Hg Hm.
  assert (Htag : forall u s l s',
             scraper_of net html_parser urljoin u s = (Ok l, s') ->
             Forall (fun r => dict_get "university" r
                              = Some (PyStr (university_name u))) l).
  { intros u s l s' H. apply scraper_records in H.
    eapply Forall_impl; [| exact H].
    intros r [item Hr]. exact (proj1 (item_ok_shape urljoin u item Hr)). }
  split.
  - simpl. now rewrite Hb, Hg, Hm.
  - intros listed [<- | [<- | [<- | []]]].
    + exists (scraper_of net html_parser urljoin Bangalore).
      split; [rewrite Hb; apply (lookup_key_of net html_parser urljoin Bangalore)|].
      apply (Htag Bangalore).
    + exists (scraper_of net html_parser urljoin Goa).
      split; [rewrite Hg; apply (lookup_key_of net html_parser urljoin Goa)|].
      apply (Htag Goa).
    + exists (scraper_of net html_parser urljoin Mumbai).
      split; [rewrite Hm; apply (lookup_key_of net html_parser urljoin Mumbai)|].
      apply (Htag Mumbai).
Qed.

Lemma listed_universities_are_served_witness :
  List.map Sample.lower supported_universities
  = List.map fst (scrapers Sample.net_up Sample.html_parser Sample.urljoin).
Proof.
  apply (@listed_universities_are_served
           Sample.net_up Sample.html_parser Sample.urljoin Sample.lower);
    reflexivity.
Defined.

Lemma stateless_scraper net html_parser urljoin (u : university) (s1 s2 : state) :
  stateless net ->
  fst (scraper_of net html_parser urljoin u s1)
  = fst (scraper_of net html_parser urljoin u s2).
Proof.
  intros Hnet.
  destruct (net (fetched s1) (url_of u)) as [e | r] eqn:H1.
  - assert (H2 : net (fetched s2) (url_of u) = GetRaises e)
      by (now rewrite (Hnet (fetched s2) (fetched s1))).
    now rewrite (@scraper_raises net html_parser urljoin u s1 e H1),
      (@scraper_raises net html_parser urljoin u s2 e H2).
  - assert (H2 : net (fetched s2) (url_of u) = GetReturns r)
      by (now rewrite (Hnet (fetched s2) (fetched s1))).
    destruct (error_status_dec (status_code r)) as [Hst | Hst].
    + now rewrite (@scraper_error_status net html_parser urljoin u s1 r H1 Hst),
        (@scraper_error_status net html_parser urljoin u s2 r H2 Hst).
    + destruct (html_parser (content r)) as [soup |] eqn:Hp.
      * now rewrite (@scraper_page net html_parser urljoin u s1 r soup H1 Hst Hp),
          (@scraper_page net html_parser urljoin u s2 r soup H2 Hst Hp).
      * now rewrite (@scraper_rejected net html_parser urljoin u s1 r H1 Hst Hp),
          (@scraper_rejected net html_parser urljoin u s2 r H2 Hst Hp).
Qed.

(** X14.  When the sites answer the same whenever they are asked, the
    endpoints are consistent with each other: each scraper has one
    outcome, a list of records or an exception.  The per-university
    endpoint paginates that list, and answers 500 when the list is
    empty or the scraper raises.  [GET /announcements] paginates the
    three lists joined, with [total] the sum of the three lengths, and
    answers 500 when the joined list is empty or any of the three
    scrapers raises, whatever the other two hold. *)
Theorem endpoints_agree_on_stateless_sites :
  forall (net : list str -> str -> get_outcome)
         (html_parser : list Byte.byte -> option node)
         (urljoin : str -> str -> option str) (lower : str -> str),
    stateless net ->
    exists outcome : university -> result (list announcement),
      (forall u s, fst (scraper_of net html_parser urljoin u s) = outcome u) /\
      (forall limit offset s,
          fst (get_all_announcements net html_parser urljoin limit offset s)
          = match outcome Bangalore, outcome Goa, outcome Mumbai with
            | Ok b, Ok g, Ok m =>
                match b ++ g ++ m with
                | [] => Raise (HTTPException 500 (lit "Internal server error"))
                | (_ :: _) as all =>
                    Ok (PageResponse (py_slice all offset (offset + limit))
                          (Z.of_nat (List.length b) + Z.of_nat (List.length g)
                           + Z.of_nat (List.length m))
                          limit offset)
                end
            | _, _, _ => Raise (HTTPException 500 (lit "Internal server error"))
            end) /\
      (forall path_value u limit offset s,
          lower path_value = key_of u ->
          fst (get_university_announcements net html_parser urljoin lower
                 path_value limit offset s)
          = match outcome u with
            | Ok ((_ :: _) as l) =>
                Ok (PageResponse (py_slice l offset (offset + limit))
                      (Z.of_nat (List.length l)) limit offset)
            | _ => Raise (HTTPException 500 (lit "Internal server error"))
            end).
Proof.
  intros net html_parser urljoin lower Hnet.
  pose (outcome := fun u => fst (scraper_of net html_parser urljoin u initial)).
  exists outcome.
  assert (Hout : forall u s,
             fst (scraper_of net html_parser urljoin u s) = outcome u)
    by (intros u s; now apply stateless_scraper).
  split; [exact Hout|]. split.
  - intros limit offset s.
    destruct (scraper_of net html_parser urljoin Bangalore s) as [rb s1] eqn:Hb.
    pose proof (Hout Bangalore s) as Eb. rewrite Hb in Eb. cbn [fst] in Eb.
    rewrite <- Eb. destruct rb as [b | e].
    + destruct (scraper_of net html_parser urljoin Goa s1) as [rg s2] eqn:Hg.
      pose proof (Hout Goa s1) as Eg. rewrite Hg in Eg. cbn [fst] in Eg.
      rewrite <- Eg. destruct rg as [g | e].
      * destruct (scraper_of net html_parser urljoin Mumbai s2) as [rm s3] eqn:Hm.
        pose proof (Hout Mumbai s2) as Em. rewrite Hm in Em. cbn [fst] in Em.
        rewrite <- Em. destruct rm as [m | e].
        -- rewrite (get_all_announcements_run net html_parser urljoin
                      limit offset s Hb Hg Hm).
           assert (Hlen : Z.of_nat (List.length (b ++ g ++ m))
                          = Z.of_nat (List.length b) + Z.of_nat (List.length g)
                            + Z.of_nat (List.length m))
             by (rewrite !length_app; lia).
           rewrite <- Hlen. destruct (b ++ g ++ m); reflexivity.
        -- now rewrite (get_all_announcements_raise_3 net html_parser urljoin
                          limit offset s Hb Hg Hm).
      * now rewrite (get_all_announcements_raise_2 net html_parser urljoin
                       limit offset s Hb Hg).
    + now rewrite (get_all_announcements_raise_1 net html_parser urljoin
                     limit offset s Hb).
  - intros path_value u limit offset s Hk.
    destruct (scraper_of net html_parser urljoin u s) as [ru s'] eqn:Hu.
    pose proof (Hout u s) as Eu. rewrite Hu in Eu. cbn [fst] in Eu.
    rewrite <- Eu. destruct ru as [l | e].
    + rewrite (get_university_announcements_run net html_parser urljoin lower
                 path_value u limit offset s Hk Hu).
      destruct l; reflexivity.
    + now rewrite (get_university_announcements_raise net html_parser urljoin lower
                     path_value u limit offset s Hk Hu).
Qed.

Lemma endpoints_agree_on_stateless_sites_witness :
  exists outcome : university -> result (list announcement),
    (forall u s,
        fst (scraper_of Sample.net_up Sample.html_parser Sample.urljoin u s)
        = outcome u) /\
    (forall limit offset s,
        fst (get_all_announcements Sample.net_up Sample.html_parser
               Sample.urljoin limit offset s)
        = match outcome Bangalore, outcome Goa, outcome Mumbai with
          | Ok b, Ok g, Ok m =>
              match b ++ g ++ m with
              | [] => Raise (HTTPException 500 (lit "Internal server error"))
              | (_ :: _) as all =>
                  Ok (PageResponse (py_slice all offset (offset + limit))
                        (Z.of_nat (List.length b) + Z.of_nat (List.length g)
                         + Z.of_nat (List.length m))
                        limit offset)
              end
          | _, _, _ => Raise (HTTPException 500 (lit "Internal server error"))
          end) /\
    (forall path_value u limit offset s,
        Sample.lower path_value = key_of u ->
        fst (get_university_announcements Sample.net_up Sample.html_parser
               Sample.urljoin Sample.lower path_value limit offset s)
        = match outcome u with
          | Ok ((_ :: _) as l) =>
              Ok (PageResponse (py_slice l offset (offset + limit))
                    (Z.of_nat (List.length l)) limit offset)
          | _ => Raise (HTTPException 500 (lit "Internal server error"))
          end).
Proof.
  apply (@endpoints_agree_on_stateless_sites
           Sample.net_up Sample.html_parser Sample.urljoin Sample.lower).
  intros history1 history2 url. reflexivity.
Defined.

(** X15.  A link with a non-empty [href] but no text of its own gives
    the title ["Untitled"], whatever other text the list item holds:
    once the link is chosen, the scraper does not fall back to the
    item's text.  The link of the record is what [urljoin] returns for
    the scraper's URL and the [href]; when [urljoin] raises, the item
    raises [ValueError] and yields no record. *)
Theorem blank_link_text_is_untitled :
  forall (urljoin : str -> str -> option str) (item a : element) (href : str),
    find (lit "a") (el_node item) = Some a ->
    get (lit "href") (el_node a) = Some href ->
    href <> [] ->
    blank (text (el_node a)) ->
    match urljoin (url_of Bangalore) href with
    | Some link =>
        exists r, bangalore_item urljoin item = Ok r /\
                  dict_get "title" r = Some (PyStr (lit "Untitled")) /\
                  dict_get "link" r = Some (PyStr link)
    | None => bangalore_item urljoin item = Raise ValueError
    end /\
    match urljoin (url_of Mumbai) href with
    | Some link =>
        exists r, mumbai_item urljoin item = Ok r /\
                  dict_get "title" r = Some (PyStr (lit "Untitled")) /\
                  dict_get "link" r = Some (PyStr link)
    | None => mumbai_item urljoin item = Raise ValueError
    end.
Proof.
  intros urljoin item a href Ha Hhref Hne Hblank.
  unfold bangalore_item, mumbai_item, join. rewrite Ha, Hhref.
  destruct href as [| c href]; [congruence|].
  rewrite (@strip_blank (text (el_node a)) Hblank). split.
  - destruct (urljoin (url_of Bangalore) (c :: href)) as [link |]; [| reflexivity].
    eexists. repeat split.
  - destruct (urljoin (url_of Mumbai) (c :: href)) as [link |]; [| reflexivity].
    eexists. repeat split.
Qed.

Lemma blank_link_text_is_untitled_witness :
  let item :=
    Element (Sample.tag "li" [Sample.txt "Results "; Sample.a_href "https://example.org/r" []]) [] in
  dict_get "title" (Sample.record (bangalore_item Sample.urljoin item))
  = Some (PyStr (lit "Untitled")) /\
  dict_get "link" (Sample.record (bangalore_item Sample.urljoin item))
  = Some (PyStr (lit "https://example.org/r")) /\
  dict_get "title" (Sample.record (mumbai_item Sample.urljoin item))
  = Some (PyStr (lit "Untitled")) /\
  dict_get "link" (Sample.record (mumbai_item Sample.urljoin item))
  = Some (PyStr (lit "https://example.org/r")).
Proof.
  intros item.
  destruct (@blank_link_text_is_untitled Sample.urljoin item
              (Element (Sample.a_href "https://example.org/r" []) [])
              (lit "https://example.org/r"))
    as [[rb [Hb [Tb Lb]]] [rm [Hm [Tm Lm]]]].
  - reflexivity.
  - reflexivity.
  - discriminate.
  - constructor.
  - rewrite Hb, Hm. simpl. repeat split; assumption.
Defined.

(** X16.  The pagination parameters decide only the window: from the
    same state, two requests to [GET /announcements] with different
    [limit] and [offset] both succeed with the same [total], or both
    end in the same error; likewise for
    [GET /announcements/{university}] with the same path value. *)
Theorem total_does_not_depend_on_the_window :
  forall (net : list str -> str -> get_outcome)
         (html_parser : list Byte.byte -> option node)
         (urljoin : str -> str -> option str) (lower : str -> str)
         (path_value : str) (limit offset limit' offset' : Z) (s : state),
    match fst (get_all_announcements net html_parser urljoin limit offset s),
          fst (get_all_announcements net html_parser urljoin limit' offset' s) with
    | Ok r, Ok r' => total r = total r'
    | Raise e, Raise e' => e = e'
    | _, _ => False
    end /\
    match fst (get_university_announcements net html_parser urljoin lower
                 path_value limit offset s),
          fst (get_university_announcements net html_parser urljoin lower
                 path_value limit' offset' s) with
    | Ok r, Ok r' => total r = total r'
    | Raise e, Raise e' => e = e'
    | _, _ => False
    end.
Proof.
  intros net html_parser urljoin lower path_value limit offset limit' offset' s.
  split.
  - unfold get_all_announcements, try_except, bind.
    destruct (scrape_bangalore_notifications net html_parser urljoin s)
      as [[b | e] s1]; [| destruct e; simpl; reflexivity].
    destruct (scrape_goa_notifications net html_parser s1)
      as [[g | e] s2]; [| destruct e; simpl; reflexivity].
    destruct (scrape_mumbai_notifications net html_parser urljoin s2)
      as [[m | e] s3]; [| destruct e; simpl; reflexivity].
    destruct (b ++ g ++ m); simpl; reflexivity.
  - unfold get_university_announcements.
    destruct (lookup net html_parser urljoin (lower path_value)) as [scraper |] eqn:E;
      [| simpl; reflexivity].
    unfold try_except, bind.
    destruct (scraper s) as [[[| x l] | e] s']; simpl; try reflexivity.
    destruct e; simpl; reflexivity.
Qed.

Lemma for_each_raises (A B : Type) (body : A -> result B) (l : list A) (x : A) (e : exn) :
  In x l -> body x = Raise e -> exists e', for_each body l = Raise e'.
Proof.
  induction l as [| y l IH]; simpl; intros Hin Hx; [destruct Hin|].
  destruct Hin as [-> | Hin].
  - rewrite Hx. eauto.
  - destruct (body y) as [r | e0]; [| eauto].
    destruct (IH Hin Hx) as [e' ->]. eauto.
Qed.

Lemma link_rejected_raises (urljoin : str -> str -> option str) (u : university)
      (item : element) :
  u <> Goa -> link_rejected urljoin u item ->
  item_of urljoin u item = Raise ValueError.
Proof.
  intros Hu [a [href [Ha [Hh [Hne Hj]]]]].
  destruct u; [| congruence |]; simpl;
    unfold bangalore_item, mumbai_item, join; rewrite Ha, Hh;
    (destruct href as [| c href]; [congruence|]); now rewrite Hj.
Qed.

(** X17.  A body the parser rejects fails the request: the scraper
    raises [ParserRejectedMarkup] after its fetch, logging nothing, its
    own [try] being closed before the parse.  [GET /announcements] then
    answers 500 without fetching the pages of the scrapers that come
    after, whatever records they would return; and
    [GET /announcements/{university}] answers 500 for that
    university. *)
Theorem rejected_markup_fails_the_request :
  forall (net : list str -> str -> get_outcome)
         (html_parser : list Byte.byte -> option node)
         (urljoin : str -> str -> option str) (lower : str -> str)
         (u : university) (path_value : str) (limit offset : Z)
         (s : state) (r : response),
    net (fetched s) (url_of u) = GetReturns r ->
    ~ error_status (status_code r) ->
    html_parser (content r) = None ->
    scraper_of net html_parser urljoin u s
    = (Raise ParserRejectedMarkup, after_fetch u s) /\
    (lower path_value = key_of u ->
     get_university_announcements net html_parser urljoin lower
       path_value limit offset s
     = (Raise (HTTPException 500 (lit "Internal server error")),
        after_handler_error
          (lit "Error in get_university_announcements for " ++ path_value ++ lit ": ")
          ParserRejectedMarkup (after_fetch u s))) /\
    (u = Bangalore ->
     get_all_announcements net html_parser urljoin limit offset s
     = (Raise (HTTPException 500 (lit "Internal server error")),
        after_handler_error (lit "Error in get_all_announcements: ")
          ParserRejectedMarkup (after_fetch Bangalore s))).
Proof.
  intros net html_parser urljoin lower u path_value limit offset s r H Hst Hp.
  pose proof (@scraper_rejected net html_parser urljoin u s r H Hst Hp) as Hrun.
  split; [exact Hrun|]. split.
  - intros Hk.
    apply (get_university_announcements_raise net html_parser urljoin lower
             path_value u limit offset s Hk Hrun).
  - intros ->.
    apply (get_all_announcements_raise_1 net html_parser urljoin limit offset s Hrun).
Qed.

Lemma rejected_markup_fails_the_request_witness :
  scraper_of Sample.net_rejected Sample.html_parser Sample.urljoin Bangalore initial
  = (Raise ParserRejectedMarkup, after_fetch Bangalore initial) /\
  fst (get_university_announcements Sample.net_rejected Sample.html_parser
         Sample.urljoin Sample.lower (lit "Bangalore") 10 0 initial)
  = Raise (HTTPException 500 (lit "Internal server error")) /\
  fetched (snd (get_all_announcements Sample.net_rejected Sample.html_parser
                  Sample.urljoin 10 0 initial))
  = [url_of Bangalore].
Proof.
  destruct (@rejected_markup_fails_the_request
              Sample.net_rejected Sample.html_parser Sample.urljoin Sample.lower
              Bangalore (lit "Bangalore") 10 0 initial
              (Response 200 Sample.rejected_body))
    as [Hs [Hu Ha]].
  - reflexivity.
  - unfold error_status. simpl. lia.
  - reflexivity.
  - split; [exact Hs|]. split.
    + rewrite Hu; reflexivity.
    + rewrite Ha; reflexivity.
Defined.

(** X18.  One link [urljoin] raises on loses the whole page: when the
    page of the Bangalore or the Mumbai scraper is fetched and parsed
    and some item of its loop has a first link with a non-empty [href]
    that [urljoin] raises on, the scraper raises [ValueError] and
    returns no record at all, not even those of the items before. *)
Theorem rejected_link_loses_the_page :
  forall (net : list str -> str -> get_outcome)
         (html_parser : list Byte.byte -> option node)
         (urljoin : str -> str -> option str)
         (u : university) (s : state) (r : response) (soup : node)
         (item : element),
    u <> Goa ->
    net (fetched s) (url_of u) = GetReturns r ->
    ~ error_status (status_code r) ->
    html_parser (content r) = Some soup ->
    In item (items_of u soup) ->
    link_rejected urljoin u item ->
    scraper_of net html_parser urljoin u s = (Raise ValueError, after_fetch u s).
Proof.
  intros net html_parser urljoin u s r soup item Hu H Hst Hp Hin Hrej.
  rewrite (@scraper_page net html_parser urljoin u s r soup H Hst Hp).
  f_equal.
  pose proof (link_rejected_raises Hu Hrej) as Hitem.
  assert (Hex : exists e, notifications_of urljoin u soup = Raise e).
  { destruct u; [| congruence |]; simpl in *;
      eapply for_each_raises; eassumption. }
  destruct Hex as [e He]. rewrite He.
  now destruct (notifications_raise urljoin u soup He) as [-> _].
Qed.

Lemma rejected_link_loses_the_page_witness :
  scraper_of Sample.net_up (fun _ => Some Sample.bangalore_page_bad_href)
    Sample.urljoin Bangalore initial
  = (Raise ValueError, after_fetch Bangalore initial).
Proof.
  apply (@rejected_link_loses_the_page
           Sample.net_up (fun _ => Some Sample.bangalore_page_bad_href)
           Sample.urljoin Bangalore initial
           (Response 200 (Sample.body_of Bangalore))
           Sample.bangalore_page_bad_href
           (Element Sample.item_bad_href [])).
  - discriminate.
  - reflexivity.
  - unfold error_status. simpl. lia.
  - reflexivity.
  - right. left. reflexivity.
  - exists (Element (Sample.a_href "http://[" [Sample.txt "Broken"]) []),
      (lit "http://["). repeat split. discriminate.
Defined.
